(** * fastqio: the chunked FASTQ reader of [fastqio/fastq.py]

    A shallow embedding of [FASTQReader] and of the helpers it is built
    from.  Python values are embedded as follows.

    - a [str] is a [string]; an [int] is a [Z]; a list is a [list];
    - an open text file is the list of the lines its iterator has still
      to yield ([next] pops the head, an empty list raises
      [StopIteration]);
    - the methods of [FASTQReader] run in a state-and-exception monad
      over the reader object and the few parts of the outside world they
      touch (the text behind the path, the parquet files written);
    - [as_completed] hands the futures back in an order the program does
      not control: every operation takes that order as an argument. *)

From Stdlib Require Import List String Ascii ZArith QArith Lia Permutation Bool Arith.
Import ListNotations.

Local Open Scope string_scope.
Local Open Scope list_scope.
Local Open Scope nat_scope.

(** ** Python primitives *)

Module Py.

Definition is_newline (c : ascii) : bool := Ascii.eqb c "010"%char.

(** The [rstrip] call of the source: every trailing newline is removed. *)
Fixpoint rstrip_nl (s : string) : string :=
  match s with
  | EmptyString => EmptyString
  | String c s' =>
      match rstrip_nl s' with
      | EmptyString => if is_newline c then EmptyString else String c EmptyString
      | r => String c r
      end
  end.

(** [ord(c)] *)
Definition ord (c : ascii) : Z := Z.of_nat (nat_of_ascii c).

(** The index adjustment of a slice with step 1: a negative index counts
    from the end, and the result is clipped to [0 .. len]. *)
Definition adjust_index (len i : Z) : Z :=
  if (i <? 0)%Z then Z.max (i + len) 0 else Z.min i len.

(** [s[start:stop]] *)
Definition slice (start stop : Z) (s : string) : string :=
  let len := Z.of_nat (String.length s) in
  let lo := adjust_index len start in
  let hi := adjust_index len stop in
  substring (Z.to_nat lo) (Z.to_nat (hi - lo)) s.

(** [range(0, n, 4)] *)
Definition range4 (n : nat) : list nat :=
  map (fun k => 4 * k) (seq 0 ((n + 3) / 4)).

(** [l[i]] for an index the caller has checked to be in range. *)
Definition item (l : list string) (i : nat) : string := nth i l EmptyString.

End Py.

(** ** Records *)

Record FASTQRecord := mkFASTQRecord {
  info : string;
  seq_ : string;
  quality : string
}.

(** The raw tuple [(info, seq, quality)] handed to the compiled helpers. *)
Definition raw_record : Type := string * string * string.

(** The constructor call that unpacks a raw tuple into a [FASTQRecord]. *)
Definition record_of_tuple (rec : raw_record) : FASTQRecord :=
  let '(i, s, q) := rec in mkFASTQRecord i s q.

(** ** [load_chunk] *)

(** The body of the [for] loop of [load_chunk]: up to [n] calls of
    [next(file_handle)], each line stripped of its newline; the loop is
    left at the first [StopIteration].  Returns the lines and the state of
    the handle afterwards. *)
Fixpoint load_lines (n : nat) (file_handle : list string)
  : list string * list string :=
  match n with
  | O => ([], file_handle)
  | S n' =>
      match file_handle with
      | [] => ([], [])
      | l :: rest =>
          let '(lines, rest') := load_lines n' rest in
          (Py.rstrip_nl l :: lines, rest')
      end
  end.

Definition load_chunk (file_handle : list string) (chunk_size : Z)
  : list string * list string :=
  load_lines (Z.to_nat (chunk_size * 4)) file_handle.

(** The [while True: lines = load_chunk(...); if not lines: break] loop
    shared by [count_reads], [trim], [filter_quality] and [extract]: the
    chunks in the order they are read, and the handle afterwards.  The
    loop is not structurally recursive; [None] means the fuel ran out
    before the [break] (see [read_chunks_terminates]). *)
Fixpoint read_chunks (fuel : nat) (file_handle : list string) (chunk_size : Z)
  : option (list (list string) * list string) :=
  match fuel with
  | O => None
  | S fuel' =>
      let '(lines, rest) := load_chunk file_handle chunk_size in
      match lines with
      | [] => Some ([], rest)
      | _ :: _ =>
          match read_chunks fuel' rest chunk_size with
          | Some (chunks, rest') => Some (lines :: chunks, rest')
          | None => None
          end
      end
  end.

(** ** Grouping the lines of a chunk *)

(** [trim] and [filter_quality]:
    [for i in range(0, len(lines), 4): if i + 3 < len(lines): ...] *)
Definition group_records (lines : list string) : list raw_record :=
  flat_map
    (fun i =>
       if i + 3 <? List.length lines
       then [(Py.item lines i, Py.item lines (i + 1), Py.item lines (i + 3))]
       else [])
    (Py.range4 (List.length lines)).

(** [extract]:
    [for i in range(0, len(lines), 4): if i + 1 < len(lines): ...] *)
Definition group_sequences (lines : list string) : list string :=
  flat_map
    (fun i => if i + 1 <? List.length lines then [Py.item lines (i + 1)] else [])
    (Py.range4 (List.length lines)).

(** ** The compiled helpers *)

(** Modelled from the spec: [trim_records_cython] lives in the compiled
    module [fastqio/fastq_cython.pyx], which is not among the sources.
    The specification gives it per record: sequence and quality are both
    the substring from index [five_prime] to [len - three_prime], the same
    excision for the two fields, where [len] is the length of the
    sequence; when [five_prime + three_prime >= len(seq)] both fields are
    the empty string; the header is passed through. *)
Definition trim_record (five_prime three_prime : Z) (rec : raw_record)
  : raw_record :=
  let '(i, s, q) := rec in
  let len := Z.of_nat (String.length s) in
  if (len <=? five_prime + three_prime)%Z
  then (i, EmptyString, EmptyString)
  else (i,
        Py.slice five_prime (len - three_prime) s,
        Py.slice five_prime (len - three_prime) q).

Definition trim_records_cython (records : list raw_record)
  (five_prime three_prime : Z) : list raw_record :=
  map (trim_record five_prime three_prime) records.

(** The per-character score of the Phred+33 encoding, summed over a
    quality string. *)
Fixpoint phred_sum (q : string) : Z :=
  match q with
  | EmptyString => 0%Z
  | String c q' => (Py.ord c - 33 + phred_sum q')%Z
  end.

(** The arithmetic mean of the scores; an empty string has none. *)
Definition average_quality (q : string) : option Q :=
  match String.length q with
  | O => None
  | S n => Some (phred_sum q # Pos.of_succ_nat n)
  end.

(** Modelled from the spec: [filter_quality_cython] lives in the compiled
    module [fastqio/fastq_cython.pyx], which is not among the sources.
    The specification keeps a record when the mean of [ord(c) - 33] over
    its quality string is at least the threshold, counts an empty quality
    string as failing, and drops the other records whole. *)
Definition passes_quality (threshold : Q) (rec : raw_record) : bool :=
  let '(_, _, q) := rec in
  match average_quality q with
  | None => false
  | Some mean => Qle_bool threshold mean
  end.

Definition filter_quality_cython (records : list raw_record) (threshold : Q)
  : list raw_record :=
  filter (passes_quality threshold) records.

(** ** The reader and its monad *)

Inductive exn : Type :=
| StopIteration
| ValueError            (* a pool created with max_workers <= 0 *)
| TypeError             (* [next] applied to [None] *)
| WorkerError (tag : nat)   (* whatever a submitted task raised *)
| FuelExhausted.        (* not a Python exception: a loop of the model ran
                           out of fuel; shown not to happen *)

Inductive outcome (A : Type) : Type :=
| Returned (a : A)
| Raised (e : exn).
Arguments Returned {A} a.
Arguments Raised {A} e.

(** One parquet file: its name, its single column, the column's values. *)
Definition parquet_file : Type := string * (string * list string).

(** The reader object together with what it sees of the world. *)
Record State := mkState {
  disk : string -> list string;   (* the text lines [open_file] yields for a path *)
  parquet : list parquet_file;    (* files written so far, latest first *)
  file_path : string;
  thread : Z;
  chunk_size : Z;
  _file : option (list string)    (* the open handle: lines still to be read *)
}.

Definition set_file (s : State) (f : option (list string)) : State :=
  mkState (disk s) (parquet s) (file_path s) (thread s) (chunk_size s) f.

Definition add_parquet (s : State) (p : parquet_file) : State :=
  mkState (disk s) (p :: parquet s) (file_path s) (thread s) (chunk_size s)
          (_file s).

(** [FASTQReader(file_path, thread, chunk_size)] *)
Definition FASTQReader (d : string -> list string) (path : string)
  (thread chunk_size : Z) : State :=
  mkState d [] path thread chunk_size None.

Definition M (A : Type) : Type := State -> outcome A * State.

Definition ret {A} (a : A) : M A := fun s => (Returned a, s).

Definition raise {A} (e : exn) : M A := fun s => (Raised e, s).

Definition bind {A B} (c : M A) (k : A -> M B) : M B :=
  fun s =>
    match c s with
    | (Returned a, s') => k a s'
    | (Raised e, s') => (Raised e, s')
    end.

(** [try: body except StopIteration: handler] *)
Definition except_StopIteration {A} (body handler : M A) : M A :=
  fun s =>
    match body s with
    | (Raised StopIteration, s') => handler s'
    | r => r
    end.

Declare Scope reader_scope.
Delimit Scope reader_scope with reader.
Notation "x <- c1 ;; c2" := (bind c1 (fun x => c2))
  (at level 61, c1 at next level, right associativity) : reader_scope.
Notation "c1 ;; c2" := (bind c1 (fun _ => c2))
  (at level 61, right associativity) : reader_scope.
Local Open Scope reader_scope.

Definition result_of {A} (r : outcome A * State) : outcome A := fst r.
Definition state_of {A} (r : outcome A * State) : State := snd r.

Definition _open_file : M unit :=
  fun s => (Returned tt, set_file s (Some (disk s (file_path s)))).

Definition _reset_file : M unit :=
  fun s =>
    match _file s with
    | Some _ => _open_file s        (* the old handle is closed first *)
    | None => _open_file s
    end.

(** [next(self._file)] *)
Definition next_file : M string :=
  fun s =>
    match _file s with
    | None => (Raised TypeError, s)
    | Some [] => (Raised StopIteration, s)
    | Some (l :: rest) => (Returned l, set_file s (Some rest))
    end.

(** [ThreadPoolExecutor(max_workers=self.thread)] *)
Definition ThreadPoolExecutor : M unit :=
  fun s => if (thread s <=? 0)%Z then (Raised ValueError, s) else (Returned tt, s).

(** The loading loop of the four bulk operations: every chunk is grouped
    by [group] in the calling thread and submitted with [task]; the list
    of futures is in submission order, each holding what its task
    returns or raises. *)
Definition submit_chunks {R B} (group : list string -> R)
  (task : R -> outcome B) : M (list (outcome B)) :=
  fun s =>
    match _file s with
    | None => (Raised TypeError, s)
    | Some fh =>
        match read_chunks (S (List.length fh)) fh (chunk_size s) with
        | None => (Raised FuelExhausted, s)
        | Some (chunks, fh') =>
            (Returned (map (fun lines => task (group lines)) chunks),
             set_file s (Some fh'))
        end
    end.

(** [for future in as_completed(futures): acc = step(acc, future.result())]
    with the futures completing in the order [order] (indices into
    [futures]); [future.result()] re-raises what the task raised. *)
Fixpoint as_completed_fold {B Acc} (step : Acc -> B -> Acc)
  (futures : list (outcome B)) (order : list nat) (acc : Acc) : outcome Acc :=
  match order with
  | [] => Returned acc
  | i :: order' =>
      match nth_error futures i with
      | Some (Returned r) => as_completed_fold step futures order' (step acc r)
      | Some (Raised e) => Raised e
      | None => as_completed_fold step futures order' acc
      end
  end.

Definition for_as_completed {B Acc} (step : Acc -> B -> Acc)
  (futures : list (outcome B)) (order : list nat) (acc : Acc) : M Acc :=
  fun s => (as_completed_fold step futures order acc, s).

(** *** Lazy iteration *)

Definition __iter__ : M unit := _reset_file.

(** One resumption of [_record_generator]: [Some] is a yielded record,
    [None] is the generator returning after its [break]. *)
Definition resume_generator : M (option FASTQRecord) :=
  except_StopIteration
    (i <- next_file ;;
     s <- next_file ;;
     _ <- next_file ;;
     q <- next_file ;;
     ret (Some (mkFASTQRecord (Py.rstrip_nl i) (Py.rstrip_nl s) (Py.rstrip_nl q))))
    (ret None).

(** Running a generator to its end, as [list] does. *)
Fixpoint drain (fuel : nat) : M (list FASTQRecord) :=
  match fuel with
  | O => raise FuelExhausted
  | S fuel' =>
      r <- resume_generator ;;
      match r with
      | None => ret []
      | Some rec => recs <- drain fuel' ;; ret (rec :: recs)
      end
  end.

(** [list(reader)] *)
Definition iterate : M (list FASTQRecord) :=
  __iter__ ;;
  fun s => drain (S (List.length (disk s (file_path s)))) s.

(** *** The bulk operations *)

Definition count_reads (order : list nat) : M Z :=
  _reset_file ;;
  ThreadPoolExecutor ;;
  futures <- submit_chunks (fun lines => lines)
               (fun l => Returned (Z.of_nat (List.length l) / 4)%Z) ;;
  count <- for_as_completed Z.add futures order 0%Z ;;
  _reset_file ;;
  ret count.

Definition trim (five_prime three_prime : Z) (order : list nat)
  : M (list FASTQRecord) :=
  _reset_file ;;
  ThreadPoolExecutor ;;
  futures <- submit_chunks group_records
               (fun records =>
                  Returned (trim_records_cython records five_prime three_prime)) ;;
  trimmed_records <-
    for_as_completed (fun acc result => acc ++ map record_of_tuple result)
                     futures order [] ;;
  _reset_file ;;
  ret trimmed_records.

Definition filter_quality (threshold : Q) (order : list nat)
  : M (list FASTQRecord) :=
  _reset_file ;;
  ThreadPoolExecutor ;;
  futures <- submit_chunks group_records
               (fun records =>
                  Returned (filter_quality_cython records threshold)) ;;
  filtered_records <-
    for_as_completed (fun acc result => acc ++ map record_of_tuple result)
                     futures order [] ;;
  _reset_file ;;
  ret filtered_records.

Definition write_table (filename : string) (column : string)
  (values : list string) : M unit :=
  fun s => (Returned tt, add_parquet s (filename, (column, values))).

Definition extract (start end_ : Z) (save_parquet : bool)
  (parquet_prefix : string) (order : list nat) : M (option (list string)) :=
  _reset_file ;;
  ThreadPoolExecutor ;;
  futures <- submit_chunks group_sequences
               (fun recs => Returned (map (Py.slice start end_) recs)) ;;
  extracted <- for_as_completed (fun acc result => acc ++ result)
                                futures order [] ;;
  _reset_file ;;
  if save_parquet
  then write_table (parquet_prefix ++ ".parquet")%string "extracted" extracted ;;
       ret None
  else ret (Some extracted).

(** ** The sample files of the test-suite *)

Definition nl : string := String "010"%char EmptyString.

(** A line of text as the file iterator yields it. *)
Definition line (s : string) : string := (s ++ nl)%string.

Definition sample_fastq : list string :=
  [ line "@read1"; line "ACGTACGTACGT"; line "+"; line "IIIIIIIIIIII";
    line "@read2"; line "TGCAAGCTTGCA"; line "+"; line "JJJJJJJJJJJJ" ].

Definition sample_quality : list string :=
  [ line "@read1"; line "ACGTACGTACGT"; line "+"; line "!!!!!!!!!!!!";
    line "@read2"; line "TGCAAGCTTGCA"; line "+"; line "JJJJJJJJJJJJ" ].

(** A reader over a given text, as the tests build it. *)
Definition reader_on (text : list string) (thread chunk_size : Z) : State :=
  FASTQReader (fun _ => text) "sample.fastq" thread chunk_size.

(** ** Reference functions used in the statements *)

(** The 4-line grouping of a whole text: header, sequence, separator,
    quality; a trailing group of fewer than four lines is left out. *)
Fixpoint split_records (lines : list string) : list raw_record :=
  match lines with
  | i :: s :: _ :: q :: rest => (i, s, q) :: split_records rest
  | _ => []
  end.

(** The sequence line of every group that has one. *)
Fixpoint split_sequences (lines : list string) : list string :=
  match lines with
  | _ :: s :: _ :: _ :: rest => s :: split_sequences rest
  | _ :: s :: _ => [s]
  | _ => []
  end.

(** The lines of the file behind a reader, newline stripped. *)
Definition text_of (s : State) : list string := disk s (file_path s).
Definition stripped_text (s : State) : list string :=
  map Py.rstrip_nl (text_of s).

(** The records of the file, in file order. *)
Definition file_records (s : State) : list FASTQRecord :=
  map record_of_tuple (split_records (stripped_text s)).

(** The chunks the loading loop cuts the file into. *)
Definition file_chunks (s : State) : list (list string) :=
  match read_chunks (S (List.length (text_of s))) (text_of s) (chunk_size s) with
  | Some (chunks, _) => chunks
  | None => []
  end.

Definition num_chunks (s : State) : nat := List.length (file_chunks s).

(** The results the futures named by [order] hold, in that order. *)
Definition pick {B} (results : list B) (order : list nat) : list B :=
  flat_map (fun i => match nth_error results i with
                     | Some r => [r]
                     | None => []
                     end) order.

(** The number of lines [load_chunk] asks for: the length of
    [range(chunk_size * 4)]. *)
Definition lines_per_chunk (chunk_size : Z) : nat := Z.to_nat (chunk_size * 4).

(** The sum of a list of integers. *)
Definition Zsum (l : list Z) : Z := fold_right Z.add 0%Z l.

(** The handle as the loading loop leaves it. *)
Definition file_rest (s : State) : list string :=
  match read_chunks (S (List.length (text_of s))) (text_of s) (chunk_size s) with
  | Some (_, rest) => rest
  | None => []
  end.

(** The list [extract] builds when its futures complete in [order]. *)
Definition extracted_of (start end_ : Z) (order : list nat) (s : State)
  : list string :=
  flat_map (fun lines => map (Py.slice start end_) (group_sequences lines))
           (pick (file_chunks s) order).

(** The excision the specification describes, applied to one field: the
    characters from index [five_prime] up to [len - three_prime], where
    [len] is the length of the sequence of the record. *)
Definition excise (five_prime three_prime : Z) (len : nat) (field : string)
  : string :=
  substring (Z.to_nat five_prime)
            (len - Z.to_nat three_prime - Z.to_nat five_prime) field.

(** A record with both fields excised and the header kept. *)
Definition trim_expected (five_prime three_prime : Z) (r : FASTQRecord)
  : FASTQRecord :=
  let len := String.length (seq_ r) in
  mkFASTQRecord (info r)
                (excise five_prime three_prime len (seq_ r))
                (excise five_prime three_prime len (quality r)).

(** A text whose last record lacks its separator and quality lines. *)
Definition truncated_fastq : list string :=
  [ line "@read1"; line "ACGT"; line "+"; line "IIII";
    line "@read2"; line "TTTT" ].

(** The records of the sample file, whole and trimmed by two bases at
    either end. *)
Definition read1_trimmed : FASTQRecord :=
  mkFASTQRecord "@read1" "GTACGTAC" "IIIIIIII".
Definition read2_trimmed : FASTQRecord :=
  mkFASTQRecord "@read2" "CAAGCTTG" "JJJJJJJJ".
Definition read1 : FASTQRecord :=
  mkFASTQRecord "@read1" "ACGTACGTACGT" "IIIIIIIIIIII".
Definition read2 : FASTQRecord :=
  mkFASTQRecord "@read2" "TGCAAGCTTGCA" "JJJJJJJJJJJJ".









(** ** Paths, opening, printing *)

(** The [endswith] method of a string. *)
Definition endswith (s suffix : string) : bool :=
  let n := String.length s in
  let m := String.length suffix in
  (m <=? n) && String.eqb (substring (n - m) m s) suffix.

Definition is_gzipped (file_path : string) : bool := endswith file_path ".gz".

(** [open_file], over the two ways of opening it chooses between: the
    text lines [gzip.open(path, 'rt')] yields and those [open(path, 'r')]
    yields. *)
Definition open_file (gzip_open open_ : string -> list string)
  (file_path : string) : list string :=
  if is_gzipped file_path then gzip_open file_path else open_ file_path.

(** The [__repr__] method of a record. *)
Definition __repr__ (self : FASTQRecord) : string :=
  ("FASTQRecord(info=" ++ info self ++ ", seq=" ++ seq_ self
   ++ ", quality=" ++ quality self ++ ")")%string.

(** A run of [k] newline characters. *)
Fixpoint newlines (k : nat) : string :=
  match k with
  | O => EmptyString
  | S k' => String "010"%char (newlines k')
  end.

(** Whether a character occurs in a string. *)
Fixpoint occurs (c : ascii) (s : string) : bool :=
  match s with
  | EmptyString => false
  | String c' s' => Ascii.eqb c c' || occurs c s'
  end.

(** Resuming the generator at most [k] times, as a consumer that wants
    the first [k] records does: the records yielded, fewer if the
    generator finished before. *)
Fixpoint resume_times (k : nat) : M (list FASTQRecord) :=
  match k with
  | O => ret []
  | S k' =>
      r <- resume_generator ;;
      match r with
      | None => ret []
      | Some rec => recs <- resume_times k' ;; ret (rec :: recs)
      end
  end.

(** The body [count_reads], [trim] and [filter_quality] share, with any
    task in the place of theirs: reset, build the pool, load and submit
    the chunks, fold the results as the futures complete, reset,
    return. *)
Definition bulk_operation {R B Acc} (group : list string -> R)
  (task : R -> outcome B) (step : Acc -> B -> Acc) (init : Acc)
  (order : list nat) : M Acc :=
  _reset_file ;;
  ThreadPoolExecutor ;;
  futures <- submit_chunks group task ;;
  acc <- for_as_completed step futures order init ;;
  _reset_file ;;
  ret acc.

(** Two states that differ in the position of the handle at most. *)
Definition only_handle_moved (s s' : State) : Prop :=
  disk s' = disk s /\ parquet s' = parquet s /\
  file_path s' = file_path s /\ thread s' = thread s /\
  chunk_size s' = chunk_size s.

(** * Properties *)

(** ** Lists cut four lines at a time *)

Section FourAtATime.

Context {A : Type}.

Lemma list_ind4 (P : list A -> Prop) :
  P [] ->
  (forall a, P [a]) ->
  (forall a b, P [a; b]) ->
  (forall a b c, P [a; b; c]) ->
  (forall a b c d rest, P rest -> P (a :: b :: c :: d :: rest)) ->
  forall l, P l.
Proof.
  intros H0 H1 H2 H3 H4.
  fix IH 1.
  intros [|a [|b [|c [|d rest]]]];
    [apply H0 | apply H1 | apply H2 | apply H3 | apply H4; apply IH].
Qed.

End FourAtATime.

Lemma range4_short n : 0 < n -> n < 4 -> Py.range4 n = [0].
Proof.
  intros Hp Hn. unfold Py.range4.
  replace ((n + 3) / 4) with 1; [reflexivity|].
  apply Nat.div_unique with (r := n - 1); lia.
Qed.

Lemma range4_step n :
  Py.range4 (4 + n) = 0 :: map (fun i => 4 + i) (Py.range4 n).
Proof.
  unfold Py.range4.
  replace ((4 + n + 3) / 4) with (S ((n + 3) / 4)).
  - cbn [seq map]. f_equal. rewrite <- seq_shift, !map_map.
    apply map_ext. intros; lia.
  - replace (4 + n + 3) with (n + 3 + 1 * 4) by lia.
    rewrite Nat.div_add by lia. lia.
Qed.

Lemma group_records_split lines : group_records lines = split_records lines.
Proof.
  induction lines as [|a|a b|a b c|a b c d rest IH] using list_ind4;
    try reflexivity.
  unfold group_records in *.
  change (List.length (a :: b :: c :: d :: rest)) with (4 + List.length rest).
  rewrite range4_step. cbn [flat_map split_records].
  replace (0 + 3 <? 4 + List.length rest) with true
    by (symmetry; apply Nat.ltb_lt; lia).
  cbn [app Py.item nth Nat.add]. f_equal.
  rewrite <- IH. rewrite flat_map_concat_map, map_map, <- flat_map_concat_map.
  apply flat_map_ext. intros i.
  replace (4 + i + 3 <? 4 + List.length rest) with (i + 3 <? List.length rest).
  2:{ destruct (Nat.ltb_spec (i + 3) (List.length rest));
      symmetry; [apply Nat.ltb_lt | apply Nat.ltb_ge]; lia. }
  unfold Py.item.
  replace (4 + i + 1) with (4 + (i + 1)) by lia.
  replace (4 + i + 3) with (4 + (i + 3)) by lia.
  reflexivity.
Qed.

Lemma group_sequences_split lines :
  group_sequences lines = split_sequences lines.
Proof.
  induction lines as [|a|a b|a b c|a b c d rest IH] using list_ind4;
    try reflexivity.
  unfold group_sequences in *.
  change (List.length (a :: b :: c :: d :: rest)) with (4 + List.length rest).
  rewrite range4_step. cbn [flat_map split_sequences].
  replace (0 + 1 <? 4 + List.length rest) with true
    by (symmetry; apply Nat.ltb_lt; lia).
  cbn [app Py.item nth Nat.add]. f_equal.
  rewrite <- IH. rewrite flat_map_concat_map, map_map, <- flat_map_concat_map.
  apply flat_map_ext. intros i.
  replace (4 + i + 1 <? 4 + List.length rest) with (i + 1 <? List.length rest).
  2:{ destruct (Nat.ltb_spec (i + 1) (List.length rest));
      symmetry; [apply Nat.ltb_lt | apply Nat.ltb_ge]; lia. }
  unfold Py.item.
  replace (4 + i + 1) with (4 + (i + 1)) by lia.
  reflexivity.
Qed.

Lemma split_records_app l1 l2 k :
  List.length l1 = 4 * k ->
  split_records (l1 ++ l2) = split_records l1 ++ split_records l2.
Proof.
  revert k.
  induction l1 as [|a|a b|a b c|a b c d rest IH] using list_ind4;
    intros k Hk; cbn [List.length] in Hk; try lia.
  - reflexivity.
  - cbn [app split_records]. rewrite (IH (k - 1)) by lia. reflexivity.
Qed.

Lemma split_sequences_app l1 l2 k :
  List.length l1 = 4 * k ->
  split_sequences (l1 ++ l2) = split_sequences l1 ++ split_sequences l2.
Proof.
  revert k.
  induction l1 as [|a|a b|a b c|a b c d rest IH] using list_ind4;
    intros k Hk; cbn [List.length] in Hk; try lia.
  - reflexivity.
  - cbn [app split_sequences]. rewrite (IH (k - 1)) by lia. reflexivity.
Qed.

Lemma split_records_short tail :
  List.length tail < 4 -> split_records tail = [].
Proof.
  destruct tail as [|a [|b [|c [|d rest]]]]; cbn [List.length]; intros;
    try reflexivity; lia.
Qed.

Lemma split_records_length l :
  List.length (split_records l) = List.length l / 4.
Proof.
  induction l as [|a|a b|a b c|a b c d rest IH] using list_ind4;
    try reflexivity.
  cbn [split_records List.length]. rewrite IH.
  change (S (S (S (S (List.length rest))))) with (4 + List.length rest).
  replace (4 + List.length rest) with (List.length rest + 1 * 4) by lia.
  rewrite Nat.div_add by lia. lia.
Qed.

(** ** The loading loop *)

Lemma load_lines_firstn_skipn n fh :
  load_lines n fh = (map Py.rstrip_nl (firstn n fh), skipn n fh).
Proof.
  revert fh. induction n as [|n IH]; intros [|l rest]; try reflexivity.
  cbn [load_lines firstn skipn map]. rewrite IH. reflexivity.
Qed.

Lemma lines_per_chunk_mult4 cs : lines_per_chunk cs = 4 * Z.to_nat cs.
Proof. unfold lines_per_chunk. lia. Qed.

Lemma load_chunk_firstn_skipn fh cs :
  load_chunk fh cs =
  (map Py.rstrip_nl (firstn (lines_per_chunk cs) fh),
   skipn (lines_per_chunk cs) fh).
Proof. apply load_lines_firstn_skipn. Qed.

Lemma read_chunks_eof fuel cs :
  read_chunks (S fuel) [] cs = Some ([], []).
Proof.
  cbn [read_chunks]. rewrite load_chunk_firstn_skipn.
  rewrite firstn_nil, skipn_nil. reflexivity.
Qed.

Lemma read_chunks_zero fuel fh cs :
  lines_per_chunk cs = 0 -> read_chunks (S fuel) fh cs = Some ([], fh).
Proof.
  intros Hn. cbn [read_chunks]. rewrite load_chunk_firstn_skipn, Hn.
  reflexivity.
Qed.

Lemma read_chunks_step fuel a fh cs :
  0 < lines_per_chunk cs ->
  read_chunks (S fuel) (a :: fh) cs =
  match read_chunks fuel (skipn (lines_per_chunk cs) (a :: fh)) cs with
  | Some (chunks, rest) =>
      Some (map Py.rstrip_nl (firstn (lines_per_chunk cs) (a :: fh)) :: chunks,
            rest)
  | None => None
  end.
Proof.
  intros Hn. cbn [read_chunks]. rewrite load_chunk_firstn_skipn.
  destruct (lines_per_chunk cs) as [|n]; [lia|]. reflexivity.
Qed.

(** With one unit of fuel per line and one to spare the loop reaches its
    [break]; the chunks tile the text from its start, every chunk but the
    last is full, none is empty, and the handle is left at end of file. *)
Lemma read_chunks_spec cs :
  0 < lines_per_chunk cs ->
  forall fuel fh,
    List.length fh < fuel ->
    exists chunks,
      read_chunks fuel fh cs = Some (chunks, []) /\
      List.concat chunks = map Py.rstrip_nl fh /\
      (forall i, i < List.length chunks ->
                 nth i chunks [] =
                 map Py.rstrip_nl
                     (firstn (lines_per_chunk cs)
                             (skipn (i * lines_per_chunk cs) fh))) /\
      (forall i, S i < List.length chunks ->
                 List.length (nth i chunks []) = lines_per_chunk cs) /\
      (forall i, i < List.length chunks -> nth i chunks [] <> []).
Proof.
  intros Hn. set (n := lines_per_chunk cs) in *.
  induction fuel as [|fuel IH]; intros fh Hlen; [lia|].
  destruct fh as [|a fh].
  - exists []. rewrite read_chunks_eof. cbn.
    repeat split; intros; lia.
  - rewrite read_chunks_step by exact Hn. fold n.
    destruct (IH (skipn n (a :: fh))) as (chunks & Hrc & Hcat & Hnth & Hfull & Hne).
    { rewrite length_skipn. cbn [List.length] in *. lia. }
    rewrite Hrc.
    exists (map Py.rstrip_nl (firstn n (a :: fh)) :: chunks).
    split; [reflexivity|]. split; [|split; [|split]].
    + cbn [List.concat]. rewrite Hcat, <- map_app, firstn_skipn. reflexivity.
    + intros [|i] Hi.
      * reflexivity.
      * cbn [nth List.length] in *. rewrite Hnth by lia.
        rewrite skipn_skipn. do 3 f_equal. lia.
    + intros [|i] Hi; cbn [nth List.length] in *.
      * rewrite length_map, length_firstn.
        destruct (skipn n (a :: fh)) as [|b rest] eqn:Hs.
        -- destruct fuel as [|fuel']; [cbn [List.length] in *; lia|].
           rewrite read_chunks_eof in Hrc. inversion Hrc; subst.
           cbn [List.length] in Hi. lia.
        -- assert (Hl : List.length (skipn n (a :: fh)) > 0)
             by (rewrite Hs; cbn; lia).
           rewrite length_skipn in Hl. lia.
      * apply Hfull. lia.
    + intros [|i] Hi; cbn [nth List.length] in *.
      * destruct n; [lia|]. discriminate.
      * apply Hne. lia.
Qed.

(** Grouping chunk by chunk is grouping the concatenation, as soon as
    every chunk but the last holds whole groups. *)
Lemma split_records_chunkwise n k (chunks : list (list string)) :
  n = 4 * k ->
  (forall i, S i < List.length chunks -> List.length (nth i chunks []) = n) ->
  flat_map split_records chunks = split_records (List.concat chunks).
Proof.
  intros Hn. induction chunks as [|c rest IH]; intros Hfull; [reflexivity|].
  cbn [flat_map List.concat].
  destruct rest as [|c' rest].
  - cbn. rewrite !app_nil_r. reflexivity.
  - rewrite (split_records_app c _ k).
    + f_equal. apply IH. intros i Hi. apply (Hfull (S i)). cbn in *. lia.
    + rewrite <- Hn. apply (Hfull 0). cbn. lia.
Qed.

Lemma split_sequences_chunkwise n k (chunks : list (list string)) :
  n = 4 * k ->
  (forall i, S i < List.length chunks -> List.length (nth i chunks []) = n) ->
  flat_map split_sequences chunks = split_sequences (List.concat chunks).
Proof.
  intros Hn. induction chunks as [|c rest IH]; intros Hfull; [reflexivity|].
  cbn [flat_map List.concat].
  destruct rest as [|c' rest].
  - cbn. rewrite !app_nil_r. reflexivity.
  - rewrite (split_sequences_app c _ k).
    + f_equal. apply IH. intros i Hi. apply (Hfull (S i)). cbn in *. lia.
    + rewrite <- Hn. apply (Hfull 0). cbn. lia.
Qed.

(** ** Collecting the futures *)

Section Collect.

Context {B Acc : Type} (step : Acc -> B -> Acc).

Lemma nth_error_map_Returned (rs : list B) i :
  nth_error (map Returned rs) i = option_map Returned (nth_error rs i).
Proof.
  revert i. induction rs as [|r rs IH]; intros [|i]; cbn; auto.
Qed.

(** When no task raised, the loop folds [step] over the results in
    completion order. *)
Lemma as_completed_fold_returned (rs : list B) order acc :
  as_completed_fold step (map Returned rs) order acc =
  Returned (fold_left step (pick rs order) acc).
Proof.
  revert acc. induction order as [|i order IH]; intros acc; [reflexivity|].
  cbn [as_completed_fold]. rewrite nth_error_map_Returned.
  unfold pick in *. cbn [flat_map].
  destruct (nth_error rs i) as [r|]; cbn [option_map app]; rewrite IH;
    reflexivity.
Qed.

(** A task that raised, once its future is reached, ends the loop with
    an exception: no accumulated value is handed on. *)
Lemma as_completed_fold_raises futures order acc i e :
  In i order ->
  nth_error futures i = Some (Raised e) ->
  exists e', as_completed_fold step futures order acc = Raised e' /\
             In (Raised e') futures.
Proof.
  revert acc. induction order as [|j order IH]; intros acc Hin Hi;
    [contradiction|].
  cbn [as_completed_fold].
  destruct (nth_error futures j) as [[r|e']|] eqn:Hj.
  - destruct Hin as [->|Hin]; [congruence|]. now apply IH.
  - exists e'. split; [reflexivity|]. eapply nth_error_In; eauto.
  - destruct Hin as [->|Hin]; [congruence|]. now apply IH.
Qed.

(** Conversely a value is returned only when every future that was
    reached holds a result. *)
Lemma as_completed_fold_complete futures order acc v :
  as_completed_fold step futures order acc = Returned v ->
  forall i e, In i order -> nth_error futures i <> Some (Raised e).
Proof.
  intros Hv i e Hin Hi.
  destruct (as_completed_fold_raises futures order acc i e Hin Hi)
    as (e' & He' & _).
  congruence.
Qed.

End Collect.

Lemma pick_map {B C} (f : B -> C) rs order :
  pick (map f rs) order = map f (pick rs order).
Proof.
  unfold pick. induction order as [|i order IH]; [reflexivity|].
  cbn [flat_map]. rewrite map_app, IH, nth_error_map.
  destruct (nth_error rs i); reflexivity.
Qed.

Lemma pick_seq_app {B} (pre rs : list B) :
  pick (pre ++ rs) (seq (List.length pre) (List.length rs)) = rs.
Proof.
  revert pre. induction rs as [|r rs IH]; intros pre; [reflexivity|].
  cbn [List.length seq]. unfold pick in *. cbn [flat_map].
  rewrite nth_error_app2, Nat.sub_diag by lia. cbn [nth_error app].
  f_equal. specialize (IH (pre ++ [r])).
  rewrite <- app_assoc, length_app in IH. cbn [List.length app] in IH.
  rewrite Nat.add_1_r in IH. exact IH.
Qed.

(** In submission order every result is picked once, in place. *)
Lemma pick_seq {B} (rs : list B) : pick rs (seq 0 (List.length rs)) = rs.
Proof. exact (pick_seq_app [] rs). Qed.

(** In any completion order the same results are picked, shuffled. *)
Lemma pick_perm {B} (rs : list B) order :
  Permutation order (seq 0 (List.length rs)) ->
  Permutation (pick rs order) rs.
Proof.
  intros Hp. rewrite <- (pick_seq rs) at 2.
  unfold pick. now apply Permutation_flat_map.
Qed.

Lemma fold_left_extend {B C} (f : B -> list C) l acc :
  fold_left (fun acc r => acc ++ f r) l acc = acc ++ flat_map f l.
Proof.
  revert acc. induction l as [|b l IH]; intros acc; cbn.
  - now rewrite app_nil_r.
  - now rewrite IH, app_assoc.
Qed.

Lemma fold_left_Zadd l acc : fold_left Z.add l acc = (acc + Zsum l)%Z.
Proof.
  revert acc. unfold Zsum.
  induction l as [|z l IH]; intros acc; cbn [fold_left fold_right]; [lia|].
  rewrite IH. lia.
Qed.

Lemma Zsum_perm l l' : Permutation l l' -> Zsum l = Zsum l'.
Proof. unfold Zsum. induction 1; cbn [fold_right]; lia. Qed.

(** ** The operations, step by step *)

(** The loading loop always reaches its [break]. *)
Lemma read_chunks_terminates fh cs :
  exists chunks rest,
    read_chunks (S (List.length fh)) fh cs = Some (chunks, rest).
Proof.
  destruct (Nat.eq_dec (lines_per_chunk cs) 0) as [Hz|Hnz].
  - exists [], fh. now apply read_chunks_zero.
  - destruct (read_chunks_spec cs ltac:(lia) (S (List.length fh)) fh ltac:(lia))
      as (chunks & H & _).
    now exists chunks, [].
Qed.

Lemma reset_file_eq s :
  _reset_file s = (Returned tt, set_file s (Some (text_of s))).
Proof. unfold _reset_file, _open_file. destruct (_file s); reflexivity. Qed.

Lemma submit_chunks_eq {R B} (group : list string -> R)
  (task : R -> outcome B) s :
  submit_chunks group task (set_file s (Some (text_of s))) =
  (Returned (map (fun lines => task (group lines)) (file_chunks s)),
   set_file s (Some (file_rest s))).
Proof.
  unfold submit_chunks, file_chunks, file_rest.
  cbn [_file set_file chunk_size].
  destruct (read_chunks_terminates (text_of s) (chunk_size s))
    as (chunks & rest & ->).
  reflexivity.
Qed.

(** What the four bulk operations have in common: with a pool that can be
    built, the tasks run on the chunks of the file and the loop over the
    completed futures decides the outcome; on a normal return the handle
    is back at the start of the file, on an exception it stays where the
    loading loop left it. *)
Lemma bulk_eq {R B Acc A} (group : list string -> R) (task : R -> outcome B)
  (step : Acc -> B -> Acc) (init : Acc) (k : Acc -> M A) order s :
  (1 <= thread s)%Z ->
  (_reset_file ;;
   ThreadPoolExecutor ;;
   futures <- submit_chunks group task ;;
   acc <- for_as_completed step futures order init ;;
   _reset_file ;;
   k acc) s =
  match as_completed_fold step
          (map (fun lines => task (group lines)) (file_chunks s)) order init with
  | Returned acc => k acc (set_file s (Some (text_of s)))
  | Raised e => (Raised e, set_file s (Some (file_rest s)))
  end.
Proof.
  intros Ht. unfold bind at 1. rewrite reset_file_eq.
  unfold bind at 1. unfold ThreadPoolExecutor at 1. cbn [thread set_file].
  replace (thread s <=? 0)%Z with false by (symmetry; apply Z.leb_gt; lia).
  unfold bind at 1. rewrite submit_chunks_eq.
  unfold bind at 1, for_as_completed at 1.
  destruct (as_completed_fold _ _ _ _) as [acc|e]; [|reflexivity].
  unfold bind. rewrite reset_file_eq. reflexivity.
Qed.

(** Without a pool nothing is read. *)
Lemma no_pool_eq {A} (k : M A) s :
  (thread s <= 0)%Z ->
  (_reset_file ;; ThreadPoolExecutor ;; k) s =
  (Raised ValueError, set_file s (Some (text_of s))).
Proof.
  intros Ht. unfold bind at 1. rewrite reset_file_eq.
  unfold bind at 1. unfold ThreadPoolExecutor at 1. cbn [thread set_file].
  replace (thread s <=? 0)%Z with true by (symmetry; apply Z.leb_le; lia).
  reflexivity.
Qed.

(** The value of a bulk operation whose tasks cannot raise. *)
Lemma bulk_total_eq {R B Acc A} (group : list string -> R) (f : R -> B)
  (step : Acc -> B -> Acc) (init : Acc) (k : Acc -> M A) order s :
  (1 <= thread s)%Z ->
  (_reset_file ;;
   ThreadPoolExecutor ;;
   futures <- submit_chunks group (fun r => Returned (f r)) ;;
   acc <- for_as_completed step futures order init ;;
   _reset_file ;;
   k acc) s =
  k (fold_left step (map (fun lines => f (group lines))
                         (pick (file_chunks s) order)) init)
    (set_file s (Some (text_of s))).
Proof.
  intros Ht. rewrite bulk_eq by exact Ht.
  rewrite <- (map_map (fun lines => f (group lines)) Returned).
  rewrite as_completed_fold_returned, pick_map. reflexivity.
Qed.

Lemma count_reads_eq order s :
  (1 <= thread s)%Z ->
  count_reads order s =
  (Returned (Zsum (map (fun l => Z.of_nat (List.length l) / 4)%Z
                       (pick (file_chunks s) order))),
   set_file s (Some (text_of s))).
Proof.
  intros Ht. unfold count_reads.
  rewrite (bulk_total_eq (fun lines => lines)) by exact Ht.
  rewrite fold_left_Zadd. reflexivity.
Qed.

Lemma trim_eq five_prime three_prime order s :
  (1 <= thread s)%Z ->
  trim five_prime three_prime order s =
  (Returned
     (flat_map (fun lines =>
                  map record_of_tuple
                      (trim_records_cython (group_records lines)
                                           five_prime three_prime))
               (pick (file_chunks s) order)),
   set_file s (Some (text_of s))).
Proof.
  intros Ht. unfold trim.
  rewrite (bulk_total_eq group_records) by exact Ht.
  rewrite fold_left_extend, flat_map_concat_map, map_map,
    <- flat_map_concat_map.
  reflexivity.
Qed.

Lemma filter_quality_eq threshold order s :
  (1 <= thread s)%Z ->
  filter_quality threshold order s =
  (Returned
     (flat_map (fun lines =>
                  map record_of_tuple
                      (filter_quality_cython (group_records lines) threshold))
               (pick (file_chunks s) order)),
   set_file s (Some (text_of s))).
Proof.
  intros Ht. unfold filter_quality.
  rewrite (bulk_total_eq group_records) by exact Ht.
  rewrite fold_left_extend, flat_map_concat_map, map_map,
    <- flat_map_concat_map.
  reflexivity.
Qed.

Lemma extract_eq start end_ save_parquet parquet_prefix order s :
  (1 <= thread s)%Z ->
  extract start end_ save_parquet parquet_prefix order s =
  if save_parquet
  then (Returned None,
        add_parquet (set_file s (Some (text_of s)))
          ((parquet_prefix ++ ".parquet")%string,
           ("extracted", extracted_of start end_ order s)))
  else (Returned (Some (extracted_of start end_ order s)),
        set_file s (Some (text_of s))).
Proof.
  intros Ht. unfold extract.
  rewrite (bulk_total_eq group_sequences) by exact Ht.
  rewrite fold_left_extend, flat_map_concat_map, map_map,
    <- flat_map_concat_map.
  destruct save_parquet; reflexivity.
Qed.

(** *** Iteration *)

Lemma set_file_twice s f g : set_file (set_file s f) g = set_file s g.
Proof. reflexivity. Qed.

Lemma drain_eq s :
  forall fh fuel,
    List.length fh < fuel ->
    drain fuel (set_file s (Some fh)) =
    (Returned (map record_of_tuple (split_records (map Py.rstrip_nl fh))),
     set_file s (Some [])).
Proof.
  induction fh as [|a|a b|a b c|a b c d rest IH] using list_ind4;
    intros [|fuel] Hlen; cbn [List.length] in Hlen; try lia;
    try reflexivity.
  cbn [drain]. unfold bind at 1.
  replace (resume_generator (set_file s (Some (a :: b :: c :: d :: rest))))
    with (Returned (Some (mkFASTQRecord (Py.rstrip_nl a) (Py.rstrip_nl b)
                                        (Py.rstrip_nl d))),
          set_file s (Some rest)) by reflexivity.
  unfold bind. rewrite IH by lia. reflexivity.
Qed.

(** Iterating to the end yields the records of the file and leaves the
    handle at end of file. *)
Lemma iterate_eq s :
  iterate s = (Returned (file_records s), set_file s (Some [])).
Proof.
  unfold iterate, __iter__. unfold bind. rewrite reset_file_eq.
  cbn [disk file_path set_file].
  apply (drain_eq s (text_of s)). unfold text_of. lia.
Qed.

(** ** The chunks of a file *)

Lemma load_chunk_eof cs : load_chunk [] cs = ([], []).
Proof. unfold load_chunk. destruct (Z.to_nat (cs * 4)); reflexivity. Qed.

(** A short chunk has drained the handle. *)
Lemma load_chunk_short fh cs lines rest :
  load_chunk fh cs = (lines, rest) ->
  List.length lines < lines_per_chunk cs ->
  rest = [].
Proof.
  rewrite load_chunk_firstn_skipn. intros [= <- <-] Hshort.
  rewrite length_map, length_firstn in Hshort.
  apply skipn_all2. lia.
Qed.

Lemma Zsum_lengths {B C} (f : B -> list C) (l : list B) :
  Zsum (map (fun b => Z.of_nat (List.length (f b))) l) =
  Z.of_nat (List.length (flat_map f l)).
Proof.
  unfold Zsum. induction l as [|b l IH]; [reflexivity|].
  cbn [map fold_right flat_map]. rewrite IH, length_app. lia.
Qed.

Section FileChunks.

Variable s : State.
Hypothesis chunk_size_pos : (1 <= chunk_size s)%Z.

Let n := lines_per_chunk (chunk_size s).

Lemma lines_per_chunk_pos : 0 < n.
Proof. unfold n, lines_per_chunk. lia. Qed.

Lemma file_chunks_spec :
  read_chunks (S (List.length (text_of s))) (text_of s) (chunk_size s) =
    Some (file_chunks s, []) /\
  List.concat (file_chunks s) = stripped_text s /\
  (forall i, S i < num_chunks s ->
             List.length (nth i (file_chunks s) []) = n).
Proof.
  destruct (read_chunks_spec (chunk_size s) lines_per_chunk_pos
              (S (List.length (text_of s))) (text_of s) ltac:(lia))
    as (chunks & Hrc & Hcat & _ & Hfull & _).
  unfold num_chunks, file_chunks. rewrite Hrc. auto.
Qed.

Lemma file_rest_eof : file_rest s = [].
Proof.
  unfold file_rest. destruct file_chunks_spec as (-> & _). reflexivity.
Qed.

Lemma file_chunks_records :
  flat_map group_records (file_chunks s) = split_records (stripped_text s).
Proof.
  destruct file_chunks_spec as (_ & Hcat & Hfull).
  rewrite <- Hcat.
  rewrite (flat_map_ext _ split_records) by (intros; apply group_records_split).
  apply (split_records_chunkwise n (Z.to_nat (chunk_size s))).
  - apply lines_per_chunk_mult4.
  - exact Hfull.
Qed.

Lemma file_chunks_sequences :
  flat_map group_sequences (file_chunks s) =
  split_sequences (stripped_text s).
Proof.
  destruct file_chunks_spec as (_ & Hcat & Hfull).
  rewrite <- Hcat.
  rewrite (flat_map_ext _ split_sequences)
    by (intros; apply group_sequences_split).
  apply (split_sequences_chunkwise n (Z.to_nat (chunk_size s))).
  - apply lines_per_chunk_mult4.
  - exact Hfull.
Qed.

Lemma file_chunks_count :
  Zsum (map (fun l => Z.of_nat (List.length l) / 4)%Z (file_chunks s)) =
  Z.of_nat (List.length (text_of s) / 4).
Proof.
  rewrite (map_ext _ (fun l => Z.of_nat (List.length (split_records l)))).
  - rewrite Zsum_lengths.
    rewrite (flat_map_ext _ group_records)
      by (intros; symmetry; apply group_records_split).
    rewrite file_chunks_records, split_records_length.
    unfold stripped_text. now rewrite length_map.
  - intros l. rewrite split_records_length, Nat2Z.inj_div. reflexivity.
Qed.

End FileChunks.

(** ** Records by position *)

Lemma split_records_nth l : forall i,
  i < List.length l / 4 ->
  nth i (split_records l) (EmptyString, EmptyString, EmptyString) =
  (nth (4 * i) l EmptyString, nth (4 * i + 1) l EmptyString,
   nth (4 * i + 3) l EmptyString).
Proof.
  induction l as [|a|a b|a b c|a b c d rest IH] using list_ind4;
    intros i Hi; cbn [List.length] in Hi;
    try (cbn in Hi; lia).
  assert (Hdiv : S (S (S (S (List.length rest)))) / 4 =
                 S (List.length rest / 4)).
  { replace (S (S (S (S (List.length rest)))))
      with (List.length rest + 1 * 4) by lia.
    rewrite Nat.div_add by lia. lia. }
  rewrite Hdiv in Hi. destruct i as [|i]; [reflexivity|].
  cbn [split_records nth]. rewrite IH by lia.
  replace (4 * S i) with (S (S (S (S (4 * i))))) by lia.
  reflexivity.
Qed.

Lemma nth_map_rstrip l k :
  nth k (map Py.rstrip_nl l) EmptyString =
  Py.rstrip_nl (nth k l EmptyString).
Proof.
  change EmptyString with (Py.rstrip_nl EmptyString) at 1. apply map_nth.
Qed.

(** * The claims *)

(** ** Counting *)

(** C3: for every file, every worker count of at least one, every chunk
    size of at least one and every order in which the futures complete,
    [count_reads] returns the number of records that sequential
    iteration over the same file yields, which is the number of complete
    four-line groups of the file. *)
Theorem count_reads_equals_iteration (s : State) (order : list nat) :
  (1 <= thread s)%Z ->
  (1 <= chunk_size s)%Z ->
  Permutation order (seq 0 (num_chunks s)) ->
  exists records,
    result_of (iterate s) = Returned records /\
    result_of (count_reads order s) =
      Returned (Z.of_nat (List.length records)) /\
    List.length records = List.length (text_of s) / 4.
Proof.
  intros Ht Hc Hp. exists (file_records s).
  rewrite iterate_eq, count_reads_eq by exact Ht.
  assert (Hlen : List.length (file_records s) = List.length (text_of s) / 4).
  { unfold file_records, stripped_text.
    now rewrite length_map, split_records_length, length_map. }
  repeat split; [|exact Hlen].
  cbn [result_of fst]. f_equal. rewrite Hlen.
  rewrite <- (file_chunks_count s Hc).
  apply Zsum_perm, Permutation_map, pick_perm. exact Hp.
Qed.

Lemma count_reads_equals_iteration_witness :
  exists records,
    result_of (iterate (reader_on sample_fastq 4 1)) = Returned records /\
    result_of (count_reads [1; 0] (reader_on sample_fastq 4 1)) =
      Returned (Z.of_nat (List.length records)) /\
    List.length records = 8 / 4.
Proof.
  apply (count_reads_equals_iteration (reader_on sample_fastq 4 1) [1; 0]).
  - vm_compute. discriminate.
  - vm_compute. discriminate.
  - vm_compute. apply perm_swap.
Defined.

(** ** Chunk boundaries *)

(** C10: in the sequence of chunks that repeated calls of [load_chunk]
    cut from one handle, a chunk of fewer than [chunk_size * 4] lines has
    drained the handle, so that every later call returns no line; every
    chunk but the last therefore holds exactly [chunk_size * 4] lines,
    chunk [i] starts at line [4 * (i * chunk_size)] of the file, so that
    no four-line group lies across a boundary, and grouping each chunk at
    offsets 0, 4, 8, ... gives the grouping of the concatenated chunks;
    for a chunk size of at least one the chunks cover the file and the
    grouping is that of the whole file. *)
Theorem chunks_hold_whole_groups (fh : list string) (cs : Z) :
  exists chunks rest,
    read_chunks (S (List.length fh)) fh cs = Some (chunks, rest) /\
    (forall h lines h',
        load_chunk h cs = (lines, h') ->
        List.length lines < Z.to_nat (cs * 4) ->
        h' = [] /\ forall cs', load_chunk h' cs' = ([], [])) /\
    (forall i, S i < List.length chunks ->
               List.length (nth i chunks []) = Z.to_nat (cs * 4)) /\
    (forall i, i < List.length chunks ->
               nth i chunks [] <> [] /\
               nth i chunks [] =
               map Py.rstrip_nl
                   (firstn (Z.to_nat (cs * 4))
                           (skipn (4 * (i * Z.to_nat cs)) fh))) /\
    flat_map group_records chunks = split_records (List.concat chunks) /\
    ((1 <= cs)%Z ->
     rest = [] /\
     List.concat chunks = map Py.rstrip_nl fh /\
     flat_map group_records chunks = split_records (map Py.rstrip_nl fh)).
Proof.
  assert (Hshort : forall h lines h',
             load_chunk h cs = (lines, h') ->
             List.length lines < Z.to_nat (cs * 4) ->
             h' = [] /\ forall cs', load_chunk h' cs' = ([], [])).
  { intros h lines h' Hl Hlt.
    assert (h' = []) as -> by (eapply load_chunk_short; eauto).
    split; [reflexivity|]. intros; apply load_chunk_eof. }
  destruct (Z_lt_le_dec cs 1) as [Hz|Hpos].
  - exists [], fh. rewrite read_chunks_zero by (unfold lines_per_chunk; lia).
    split; [reflexivity|]. split; [exact Hshort|].
    repeat split; try (cbn [List.length] in *; intros; lia).
  - assert (Hn : 0 < lines_per_chunk cs) by (unfold lines_per_chunk; lia).
    destruct (read_chunks_spec cs Hn (S (List.length fh)) fh ltac:(lia))
      as (chunks & Hrc & Hcat & Hnth & Hfull & Hne).
    fold (lines_per_chunk cs).
    assert (Hgroup : flat_map group_records chunks =
                     split_records (List.concat chunks)).
    { rewrite (flat_map_ext _ split_records)
        by (intros; apply group_records_split).
      apply (split_records_chunkwise (lines_per_chunk cs) (Z.to_nat cs));
        [apply lines_per_chunk_mult4 | exact Hfull]. }
    exists chunks, []. split; [exact Hrc|].
    split; [exact Hshort|]. split; [exact Hfull|].
    split; [|split].
    + intros i Hi. split; [now apply Hne|].
      rewrite Hnth by exact Hi. do 3 f_equal.
      rewrite lines_per_chunk_mult4. lia.
    + exact Hgroup.
    + intros _. rewrite Hgroup, Hcat. auto.
Qed.

Lemma chunks_hold_whole_groups_witness :
  exists chunks,
    read_chunks 9 sample_fastq 1 = Some (chunks, []) /\
    flat_map group_records chunks =
    split_records (map Py.rstrip_nl sample_fastq).
Proof.
  destruct (chunks_hold_whole_groups sample_fastq 1)
    as (chunks & rest & Hrc & _ & _ & _ & _ & Hcover).
  destruct Hcover as (-> & _ & Hgroup); [vm_compute; discriminate|].
  exists chunks. split; [exact Hrc | exact Hgroup].
Defined.

(** ** Slices *)

Lemma substring_beyond s : forall n m,
  String.length s <= n -> substring n m s = EmptyString.
Proof.
  induction s as [|c s IH]; intros [|n] [|m] H; cbn in *;
    try reflexivity; try lia; apply IH; lia.
Qed.

Lemma substring_clip s : forall n m,
  substring n m s = substring n (Nat.min m (String.length s - n)) s.
Proof.
  induction s as [|c s IH]; intros n m.
  - destruct n, m; reflexivity.
  - destruct n as [|n].
    + destruct m as [|m]; [reflexivity|].
      cbn [substring String.length Nat.sub Nat.min].
      now rewrite (IH 0 m), Nat.sub_0_r.
    + cbn [substring String.length Nat.sub]. apply IH.
Qed.

Lemma substring_length s : forall n m,
  String.length (substring n m s) = Nat.min m (String.length s - n).
Proof.
  induction s as [|c s IH]; intros n m.
  - destruct n, m; reflexivity.
  - destruct n as [|n].
    + destruct m as [|m]; [reflexivity|].
      cbn [substring String.length Nat.sub Nat.min].
      now rewrite (IH 0 m), Nat.sub_0_r.
    + cbn [substring String.length Nat.sub]. apply IH.
Qed.

(** The length of a slice depends on the string through its length only. *)
Lemma slice_length start stop s :
  String.length (Py.slice start stop s) =
  let len := Z.of_nat (String.length s) in
  Z.to_nat (Py.adjust_index len stop - Py.adjust_index len start).
Proof.
  unfold Py.slice. rewrite substring_length. cbv zeta.
  remember (Z.of_nat (String.length s)) as len eqn:Hlen.
  assert (0 <= len)%Z by lia.
  assert (Hlo : (0 <= Py.adjust_index len start <= len)%Z)
    by (unfold Py.adjust_index;
        destruct (start <? 0)%Z eqn:E; [|apply Z.ltb_ge in E]; lia).
  assert (Hhi : (0 <= Py.adjust_index len stop <= len)%Z)
    by (unfold Py.adjust_index;
        destruct (stop <? 0)%Z eqn:E; [|apply Z.ltb_ge in E]; lia).
  lia.
Qed.

(** With indices that are not negative a slice is the substring from
    [start] of [stop - start] characters, cut at the end of the string. *)
Lemma slice_nonneg start stop s :
  (0 <= start)%Z -> (0 <= stop)%Z ->
  Py.slice start stop s =
  substring (Z.to_nat start) (Z.to_nat (stop - start)) s.
Proof.
  intros Ha Hb. unfold Py.slice, Py.adjust_index.
  replace (start <? 0)%Z with false by (symmetry; apply Z.ltb_ge; lia).
  replace (stop <? 0)%Z with false by (symmetry; apply Z.ltb_ge; lia).
  remember (Z.of_nat (String.length s)) as len eqn:Hlen.
  destruct (Z_lt_le_dec start len) as [Hin|Hout].
  - rewrite Z.min_l by lia.
    rewrite (substring_clip s _ (Z.to_nat (Z.min stop len - start))).
    rewrite (substring_clip s _ (Z.to_nat (stop - start))).
    f_equal. lia.
  - rewrite !substring_beyond; [reflexivity | lia | lia].
Qed.

(** A start at or beyond the end gives the empty string. *)
Lemma slice_start_beyond start stop s :
  (Z.of_nat (String.length s) <= start)%Z ->
  Py.slice start stop s = EmptyString.
Proof.
  intros H.
  assert (Hlen : String.length (Py.slice start stop s) = 0);
    [|destruct (Py.slice start stop s); [reflexivity|discriminate]].
  rewrite slice_length. cbv zeta. unfold Py.adjust_index.
  destruct (start <? 0)%Z eqn:E; [apply Z.ltb_lt in E; lia|].
  destruct (stop <? 0)%Z eqn:E'; [|apply Z.ltb_ge in E']; lia.
Qed.

(** ** Trimming *)

Lemma flat_map_map_out {B C D} (f : B -> list C) (g : C -> D) l :
  flat_map (fun x => map g (f x)) l = map g (flat_map f l).
Proof.
  induction l as [|b l IH]; [reflexivity|].
  cbn [flat_map]. now rewrite map_app, IH.
Qed.

Lemma pick_In {B} (rs : list B) order x : In x (pick rs order) -> In x rs.
Proof.
  unfold pick. rewrite in_flat_map. intros (i & _ & Hx).
  destruct (nth_error rs i) as [r|] eqn:Hi; [|contradiction].
  destruct Hx as [<-|[]]. eapply nth_error_In; eauto.
Qed.

Lemma file_chunks_nil s : (chunk_size s < 1)%Z -> file_chunks s = [].
Proof.
  intros H. unfold file_chunks.
  rewrite read_chunks_zero by (unfold lines_per_chunk; lia). reflexivity.
Qed.

Lemma substring_zero s : forall n, substring n 0 s = EmptyString.
Proof.
  induction s as [|c s IH]; intros [|n]; cbn [substring]; auto.
Qed.

Lemma trim_record_expected five_prime three_prime i s q :
  (0 <= five_prime)%Z -> (0 <= three_prime)%Z ->
  record_of_tuple (trim_record five_prime three_prime (i, s, q)) =
  trim_expected five_prime three_prime (mkFASTQRecord i s q).
Proof.
  intros Ha Hb. unfold trim_record, trim_expected, excise.
  cbn [seq_ info quality].
  destruct (Z.leb_spec (Z.of_nat (String.length s)) (five_prime + three_prime))
    as [Hall|Hsome]; cbn [record_of_tuple].
  - replace (String.length s - Z.to_nat three_prime - Z.to_nat five_prime)
      with 0 by lia.
    now rewrite !substring_zero.
  - rewrite !slice_nonneg by lia. do 3 f_equal; lia.
Qed.

Lemma trim_record_lengths five_prime three_prime i s q :
  String.length s = String.length q ->
  let o := record_of_tuple (trim_record five_prime three_prime (i, s, q)) in
  String.length (seq_ o) = String.length (quality o).
Proof.
  intros Heq. unfold trim_record.
  destruct (Z.leb_spec (Z.of_nat (String.length s)) (five_prime + three_prime));
    cbn [record_of_tuple seq_ quality]; [reflexivity|].
  rewrite !slice_length. cbv zeta. now rewrite Heq.
Qed.

(** What [trim] returns, in terms of the records of each chunk. *)
Lemma trim_result five_prime three_prime order s :
  (1 <= thread s)%Z ->
  result_of (trim five_prime three_prime order s) =
  Returned
    (map (fun rec => record_of_tuple (trim_record five_prime three_prime rec))
         (flat_map group_records (pick (file_chunks s) order))).
Proof.
  intros Ht. rewrite trim_eq by exact Ht. cbn [result_of fst]. f_equal.
  unfold trim_records_cython.
  rewrite <- flat_map_map_out. apply flat_map_ext. intros lines.
  now rewrite map_map.
Qed.

Lemma map_trim_expected five_prime three_prime (recs : list raw_record) :
  (0 <= five_prime)%Z -> (0 <= three_prime)%Z ->
  map (fun rec => record_of_tuple (trim_record five_prime three_prime rec)) recs =
  map (trim_expected five_prime three_prime) (map record_of_tuple recs).
Proof.
  intros Ha Hb. rewrite map_map. apply map_ext. intros [[i sq] q].
  now apply trim_record_expected.
Qed.

(** C4: for all [five_prime >= 0] and [three_prime >= 0], [trim] returns
    one record for every record of the input, the input being the records
    of the file: one for every four lines, made of lines [4 i], [4 i + 1]
    and [4 i + 3].  The sequence and quality of the output are the
    substrings from index [five_prime] up to [len - three_prime], its
    header is the input header, and both fields are the empty string, not
    an error, whenever [five_prime + three_prime >= len(seq)].  The
    records come in file order when the futures complete in submission
    order. *)
Theorem trim_excises_both_fields (s : State) (five_prime three_prime : Z)
  (order : list nat) :
  (0 <= five_prime)%Z -> (0 <= three_prime)%Z ->
  (1 <= thread s)%Z -> (1 <= chunk_size s)%Z ->
  Permutation order (seq 0 (num_chunks s)) ->
  exists records out,
    result_of (iterate s) = Returned records /\
    List.length records = List.length (text_of s) / 4 /\
    (forall i, i < List.length records ->
       nth i records (mkFASTQRecord EmptyString EmptyString EmptyString) =
       mkFASTQRecord (Py.rstrip_nl (nth (4 * i) (text_of s) EmptyString))
                     (Py.rstrip_nl (nth (4 * i + 1) (text_of s) EmptyString))
                     (Py.rstrip_nl (nth (4 * i + 3) (text_of s) EmptyString))) /\
    result_of (trim five_prime three_prime order s) = Returned out /\
    List.length out = List.length (text_of s) / 4 /\
    Permutation out (map (trim_expected five_prime three_prime) records) /\
    (order = seq 0 (num_chunks s) ->
     out = map (trim_expected five_prime three_prime) records) /\
    (forall r, In r records ->
       let o := trim_expected five_prime three_prime r in
       info o = info r /\
       seq_ o = substring (Z.to_nat five_prime)
                  (String.length (seq_ r) - Z.to_nat three_prime
                   - Z.to_nat five_prime) (seq_ r) /\
       quality o = substring (Z.to_nat five_prime)
                     (String.length (seq_ r) - Z.to_nat three_prime
                      - Z.to_nat five_prime) (quality r) /\
       ((Z.of_nat (String.length (seq_ r)) <= five_prime + three_prime)%Z ->
        seq_ o = EmptyString /\ quality o = EmptyString)).
Proof.
  intros Ha Hb Ht Hc Hp.
  assert (Hlen : List.length (file_records s) = List.length (text_of s) / 4).
  { unfold file_records, stripped_text.
    now rewrite length_map, split_records_length, length_map. }
  assert (Hperm :
    Permutation
      (map (fun rec => record_of_tuple (trim_record five_prime three_prime rec))
           (flat_map group_records (pick (file_chunks s) order)))
      (map (trim_expected five_prime three_prime) (file_records s))).
  { rewrite map_trim_expected by assumption.
    unfold file_records. rewrite <- (file_chunks_records s Hc).
    do 2 apply Permutation_map. apply Permutation_flat_map.
    apply pick_perm. exact Hp. }
  exists (file_records s).
  eexists. rewrite iterate_eq, trim_result by exact Ht.
  split; [reflexivity|]. split; [exact Hlen|]. split; [|split; [reflexivity|]].
  { intros i Hi. rewrite Hlen in Hi. unfold file_records, stripped_text.
    change (mkFASTQRecord EmptyString EmptyString EmptyString)
      with (record_of_tuple (EmptyString, EmptyString, EmptyString)).
    rewrite map_nth, split_records_nth by now rewrite length_map.
    now rewrite !nth_map_rstrip. }
  split; [|split; [exact Hperm|split]].
  - now rewrite (Permutation_length Hperm), length_map.
  - intros ->. rewrite map_trim_expected by assumption.
    unfold file_records. rewrite <- (file_chunks_records s Hc).
    unfold num_chunks. now rewrite pick_seq.
  - intros r _. cbv zeta. unfold trim_expected, excise.
    cbn [info seq_ quality]. repeat split.
    + replace (String.length (seq_ r) - Z.to_nat three_prime
               - Z.to_nat five_prime) with 0 by lia.
      apply substring_zero.
    + replace (String.length (seq_ r) - Z.to_nat three_prime
               - Z.to_nat five_prime) with 0 by lia.
      apply substring_zero.
Qed.

Lemma trim_excises_both_fields_witness :
  exists records out,
    result_of (iterate (reader_on sample_fastq 4 1)) = Returned records /\
    List.length records = List.length sample_fastq / 4 /\
    result_of (trim 2 2 [1; 0] (reader_on sample_fastq 4 1)) = Returned out /\
    Permutation out (map (trim_expected 2 2) records).
Proof.
  destruct (trim_excises_both_fields (reader_on sample_fastq 4 1) 2 2 [1; 0])
    as (records & out & Hi & Hlen & _ & Ho & _ & Hperm & _).
  - lia.
  - lia.
  - vm_compute. discriminate.
  - vm_compute. discriminate.
  - vm_compute. apply perm_swap.
  - exists records, out. auto.
Defined.

(** C8: [trim(a, b)] preserves the invariant of a record: when every
    record of the input has a sequence and a quality of the same length,
    every record [trim(a, b)] returns has a sequence and a quality of the
    same length, for all [a] and [b] and for every order of completion. *)
Theorem trim_keeps_lengths_equal (s : State) (five_prime three_prime : Z)
  (order : list nat) :
  (1 <= thread s)%Z ->
  (forall r, In r (file_records s) ->
             String.length (seq_ r) = String.length (quality r)) ->
  exists out,
    result_of (trim five_prime three_prime order s) = Returned out /\
    forall o, In o out -> String.length (seq_ o) = String.length (quality o).
Proof.
  intros Ht Hwf. eexists. split; [apply trim_result; exact Ht|].
  intros o Ho. apply in_map_iff in Ho. destruct Ho as ([[i sq] q] & <- & Hin).
  apply trim_record_lengths.
  apply in_flat_map in Hin. destruct Hin as (lines & Hlines & Hrec).
  apply pick_In in Hlines.
  destruct (Z_lt_le_dec (chunk_size s) 1) as [Hz|Hc].
  - rewrite file_chunks_nil in Hlines by exact Hz. contradiction.
  - apply (Hwf (mkFASTQRecord i sq q)).
    unfold file_records. rewrite <- (file_chunks_records s Hc).
    apply in_map_iff. exists (i, sq, q). split; [reflexivity|].
    apply in_flat_map. eauto.
Qed.

Lemma trim_keeps_lengths_equal_witness :
  exists out,
    result_of (trim 2 2 [1; 0] (reader_on sample_fastq 4 1)) = Returned out /\
    forall o, In o out -> String.length (seq_ o) = String.length (quality o).
Proof.
  apply (trim_keeps_lengths_equal (reader_on sample_fastq 4 1) 2 2 [1; 0]).
  - vm_compute. discriminate.
  - vm_compute. intros r [<-|[<-|[]]]; reflexivity.
Defined.

(** ** The order of the result *)

(** With the futures completing in submission order the bulk operations
    return what a sequential pass over the file returns. *)
Lemma trim_submission_order five_prime three_prime s :
  (1 <= thread s)%Z -> (1 <= chunk_size s)%Z ->
  result_of (trim five_prime three_prime (seq 0 (num_chunks s)) s) =
  Returned
    (map record_of_tuple
         (trim_records_cython (split_records (stripped_text s))
                              five_prime three_prime)).
Proof.
  intros Ht Hc. rewrite trim_result by exact Ht.
  unfold num_chunks. rewrite pick_seq, (file_chunks_records s Hc).
  unfold trim_records_cython. now rewrite map_map.
Qed.

Lemma filter_flat_map {B C} (p : C -> bool) (f : B -> list C) l :
  flat_map (fun x => filter p (f x)) l = filter p (flat_map f l).
Proof.
  induction l as [|b l IH]; [reflexivity|].
  cbn [flat_map]. now rewrite filter_app, IH.
Qed.

Lemma filter_quality_result threshold order s :
  (1 <= thread s)%Z ->
  result_of (filter_quality threshold order s) =
  Returned
    (map record_of_tuple
         (filter (passes_quality threshold)
                 (flat_map group_records (pick (file_chunks s) order)))).
Proof.
  intros Ht. rewrite filter_quality_eq by exact Ht. cbn [result_of fst].
  f_equal. unfold filter_quality_cython.
  rewrite <- filter_flat_map, <- flat_map_map_out. reflexivity.
Qed.

Lemma filter_quality_submission_order threshold s :
  (1 <= thread s)%Z -> (1 <= chunk_size s)%Z ->
  result_of (filter_quality threshold (seq 0 (num_chunks s)) s) =
  Returned
    (map record_of_tuple
         (filter_quality_cython (split_records (stripped_text s)) threshold)).
Proof.
  intros Ht Hc. rewrite filter_quality_result by exact Ht.
  unfold num_chunks. now rewrite pick_seq, (file_chunks_records s Hc).
Qed.

Lemma extracted_submission_order start end_ s :
  (1 <= chunk_size s)%Z ->
  extracted_of start end_ (seq 0 (num_chunks s)) s =
  map (Py.slice start end_) (split_sequences (stripped_text s)).
Proof.
  intros Hc. unfold extracted_of, num_chunks.
  now rewrite pick_seq, flat_map_map_out, (file_chunks_sequences s Hc).
Qed.

(** In any order of completion the same values are returned, shuffled
    chunk by chunk. *)
Lemma trim_any_order five_prime three_prime order s :
  (1 <= thread s)%Z -> (1 <= chunk_size s)%Z ->
  Permutation order (seq 0 (num_chunks s)) ->
  exists out,
    result_of (trim five_prime three_prime order s) = Returned out /\
    Permutation out
      (map record_of_tuple
           (trim_records_cython (split_records (stripped_text s))
                                five_prime three_prime)).
Proof.
  intros Ht Hc Hp. eexists. split; [apply trim_result; exact Ht|].
  rewrite <- (file_chunks_records s Hc).
  unfold trim_records_cython. rewrite map_map.
  apply Permutation_map, Permutation_flat_map, pick_perm, Hp.
Qed.

(** C1: the claim asks that the batches be concatenated in ascending chunk
    order whatever the order of completion.  The loops over
    [as_completed] append them in completion order: on the sample file of
    the test-suite, read one record per chunk, the second chunk
    completing first puts the second record first, for [trim],
    [filter_quality] and [extract] alike, where submission order gives
    the file order. *)
Theorem completion_order_decides_result :
  let reader := reader_on sample_fastq 4 1 in
  result_of (trim 2 2 [0; 1] reader) = Returned [read1_trimmed; read2_trimmed] /\
  result_of (trim 2 2 [1; 0] reader) = Returned [read2_trimmed; read1_trimmed] /\
  result_of (filter_quality (30 # 1) [0; 1] reader) = Returned [read1; read2] /\
  result_of (filter_quality (30 # 1) [1; 0] reader) = Returned [read2; read1] /\
  result_of (extract 2 6 false "extracted" [0; 1] reader) =
    Returned (Some ["GTAC"; "CAAG"]) /\
  result_of (extract 2 6 false "extracted" [1; 0] reader) =
    Returned (Some ["CAAG"; "GTAC"]) /\
  result_of (trim 2 2 [1; 0] reader) <> result_of (trim 2 2 [0; 1] reader).
Proof. vm_compute. repeat split. discriminate. Qed.

(** ** Incomplete trailing groups *)

Lemma split_records_drop_tail body tail k :
  List.length body = 4 * k -> List.length tail < 4 ->
  split_records (body ++ tail) = split_records body.
Proof.
  intros Hb Ht. rewrite (split_records_app body tail k Hb).
  now rewrite (split_records_short tail Ht), app_nil_r.
Qed.

(** Iteration, counting, trimming and filtering leave an incomplete
    trailing group out: the records of a text are those of its complete
    groups. *)
Lemma file_records_drop_tail d path t c f p body tail k :
  d path = body ++ tail ->
  List.length body = 4 * k -> List.length tail < 4 ->
  file_records (mkState d p path t c f) =
  map record_of_tuple (split_records (map Py.rstrip_nl body)).
Proof.
  intros Hd Hb Ht. unfold file_records, stripped_text, text_of.
  cbn [disk file_path]. rewrite Hd, map_app.
  rewrite (split_records_drop_tail _ _ k); rewrite ?length_map; auto.
Qed.

(** C2: the claim asks that an incomplete trailing group contribute
    nothing to the output of any operation.  On a text of one complete
    record followed by a header and a sequence line, iteration, counting,
    trimming and filtering see one record, as claimed, but [extract],
    whose grouping loop tests [i + 1 < len(lines)] where the other loops
    test [i + 3 < len(lines)], returns a substring of the incomplete
    group as well. *)
Theorem extract_keeps_incomplete_group :
  let reader := reader_on truncated_fastq 4 10 in
  result_of (iterate reader) = Returned [mkFASTQRecord "@read1" "ACGT" "IIII"] /\
  result_of (count_reads [0] reader) = Returned 1%Z /\
  result_of (trim 0 0 [0] reader) =
    Returned [mkFASTQRecord "@read1" "ACGT" "IIII"] /\
  result_of (filter_quality (0 # 1) [0] reader) =
    Returned [mkFASTQRecord "@read1" "ACGT" "IIII"] /\
  result_of (extract 0 4 false "extracted" [0] reader) =
    Returned (Some ["ACGT"; "TTTT"]).
Proof. vm_compute. repeat split. Qed.

(** ** Filtering *)

(** A record passes when its quality string is not empty and the mean of
    its scores reaches the threshold. *)
Lemma passes_quality_spec threshold i sq q :
  passes_quality threshold (i, sq, q) = true <->
  q <> EmptyString /\
  (threshold <= phred_sum q # Pos.of_nat (String.length q))%Q.
Proof.
  unfold passes_quality, average_quality.
  destruct q as [|c q]; cbn [String.length].
  - split; [discriminate | intros [H _]; now elim H].
  - rewrite Qle_bool_iff.
    replace (Pos.of_succ_nat (String.length q))
      with (Pos.of_nat (S (String.length q)))
      by (symmetry; apply Pos.of_nat_succ).
    split; [intros H; split; [discriminate | exact H] | now intros [_ H]].
Qed.

Lemma filter_quality_any_order threshold order s :
  (1 <= thread s)%Z -> (1 <= chunk_size s)%Z ->
  Permutation order (seq 0 (num_chunks s)) ->
  exists out,
    result_of (filter_quality threshold order s) = Returned out /\
    Permutation out
      (map record_of_tuple
           (filter_quality_cython (split_records (stripped_text s)) threshold)).
Proof.
  intros Ht Hc Hp. eexists.
  split; [apply filter_quality_result; exact Ht|].
  rewrite <- (file_chunks_records s Hc).
  unfold filter_quality_cython. rewrite <- !filter_flat_map.
  apply Permutation_map, Permutation_flat_map, pick_perm, Hp.
Qed.

(** The third scenario of the test-suite. *)
Example filter_quality_scenario :
  result_of (filter_quality (30 # 1) [0; 1] (reader_on sample_quality 4 1)) =
  Returned [read2].
Proof. reflexivity. Qed.

(** C5: the claim asks for the records that pass, in input order.  Which
    records pass is as claimed (see [passes_quality_spec] and
    [filter_quality_submission_order]), but they are appended in the
    order the futures complete: both records of the sample file have a
    mean score above 30, and with the second chunk completing first the
    result starts with the second record. *)
Theorem filter_quality_follows_completion_order :
  let reader := reader_on sample_fastq 4 1 in
  result_of (iterate reader) = Returned [read1; read2] /\
  passes_quality (30 # 1) ("@read1", "ACGTACGTACGT", "IIIIIIIIIIII") = true /\
  passes_quality (30 # 1) ("@read2", "TGCAAGCTTGCA", "JJJJJJJJJJJJ") = true /\
  result_of (filter_quality (30 # 1) [1; 0] reader) = Returned [read2; read1].
Proof. vm_compute. repeat split. Qed.

(** ** Extraction *)

Lemma extract_result start end_ parquet_prefix order s :
  (1 <= thread s)%Z ->
  result_of (extract start end_ false parquet_prefix order s) =
    Returned (Some (extracted_of start end_ order s)) /\
  extract start end_ true parquet_prefix order s =
    (Returned None,
     add_parquet (set_file s (Some (text_of s)))
       ((parquet_prefix ++ ".parquet")%string,
        ("extracted", extracted_of start end_ order s))).
Proof.
  intros Ht. rewrite !extract_eq by exact Ht. split; reflexivity.
Qed.

(** A negative index counts from the end of the string. *)
Lemma slice_negative_start start stop s :
  (- Z.of_nat (String.length s) <= start < 0)%Z ->
  Py.slice start stop s =
  Py.slice (start + Z.of_nat (String.length s)) stop s.
Proof.
  intros H. unfold Py.slice, Py.adjust_index.
  replace (start <? 0)%Z with true by (symmetry; apply Z.ltb_lt; lia).
  replace (start + Z.of_nat (String.length s) <? 0)%Z with false
    by (symmetry; apply Z.ltb_ge; lia).
  do 2 f_equal; lia.
Qed.

(** A stop beyond the end is the end. *)
Lemma slice_stop_beyond start stop s :
  (Z.of_nat (String.length s) <= stop)%Z ->
  Py.slice start stop s = Py.slice start (Z.of_nat (String.length s)) s.
Proof.
  intros H. unfold Py.slice, Py.adjust_index.
  replace (stop <? 0)%Z with false by (symmetry; apply Z.ltb_ge; lia).
  replace (Z.of_nat (String.length s) <? 0)%Z with false
    by (symmetry; apply Z.ltb_ge; lia).
  do 2 f_equal; lia.
Qed.

(** C6: the claim asks for the list of [seq[start:end]] of every record,
    in order, or for that list in the sink and no value in memory.  The
    slices and the two ways of returning are as claimed, but the list is
    appended in the order the futures complete, and it holds a substring
    for an incomplete trailing group that has a sequence line. *)
Theorem extract_order_and_incomplete_group :
  result_of (extract 2 6 false "extracted" [1; 0] (reader_on sample_fastq 4 1)) =
    Returned (Some ["CAAG"; "GTAC"]) /\
  result_of (iterate (reader_on truncated_fastq 4 10)) =
    Returned [mkFASTQRecord "@read1" "ACGT" "IIII"] /\
  result_of (extract 0 4 false "extracted" [0] (reader_on truncated_fastq 4 10)) =
    Returned (Some ["ACGT"; "TTTT"]) /\
  result_of (extract 2 6 true "hto" [0; 1] (reader_on sample_fastq 4 1)) =
    Returned None /\
  parquet (state_of (extract 2 6 true "hto" [0; 1] (reader_on sample_fastq 4 1))) =
    [("hto.parquet", ("extracted", ["GTAC"; "CAAG"]))].
Proof. vm_compute. repeat split. Qed.

(** ** Failing tasks *)

(** A bulk operation one of whose tasks raises does not return: the
    exception of some task is raised, and the handle is not reset. *)
Lemma bulk_raises {R B Acc A} (group : list string -> R)
  (task : R -> outcome B) (step : Acc -> B -> Acc) (init : Acc)
  (k : Acc -> M A) order s i e :
  (1 <= thread s)%Z ->
  In i order ->
  nth_error (map (fun lines => task (group lines)) (file_chunks s)) i =
    Some (Raised e) ->
  exists e',
    (_reset_file ;;
     ThreadPoolExecutor ;;
     futures <- submit_chunks group task ;;
     acc <- for_as_completed step futures order init ;;
     _reset_file ;;
     k acc) s = (Raised e', set_file s (Some (file_rest s))).
Proof.
  intros Ht Hin Hi. rewrite bulk_eq by exact Ht.
  destruct (as_completed_fold_raises step _ order init i e Hin Hi)
    as (e' & -> & _).
  now exists e'.
Qed.

(** C9: the claim asks that an operation either fail as a whole or return
    a complete, correctly ordered result.  A task that raises does make
    the collecting loop raise, whatever was accumulated before (see
    [as_completed_fold_raises] and [bulk_raises]); but a call that
    succeeds returns the batches in completion order, which need not be
    the chunk order. *)
Theorem failure_is_whole_but_order_is_not_kept :
  as_completed_fold (fun acc result => acc ++ result)
    [Returned ["GTAC"]; Raised (WorkerError 1); Returned ["CAAG"]]
    [0; 2; 1] [] = Raised (WorkerError 1) /\
  as_completed_fold (fun acc result => acc ++ result)
    [Returned ["GTAC"]; Returned ["TTTT"]; Returned ["CAAG"]]
    [0; 2; 1] [] = Returned ["GTAC"; "CAAG"; "TTTT"] /\
  result_of (extract 2 6 false "extracted" [1; 0] (reader_on sample_fastq 4 1)) =
    Returned (Some ["CAAG"; "GTAC"]) /\
  result_of (extract 2 6 false "extracted" [0; 1] (reader_on sample_fastq 4 1)) =
    Returned (Some ["GTAC"; "CAAG"]).
Proof. vm_compute. repeat split. Qed.

(** ** Calls in sequence *)


(** Without a pool the four bulk operations raise [ValueError]. *)
Lemma bulk_no_pool s :
  (thread s <= 0)%Z ->
  let s' := set_file s (Some (text_of s)) in
  (forall order, count_reads order s = (Raised ValueError, s')) /\
  (forall a b order, trim a b order s = (Raised ValueError, s')) /\
  (forall thr order, filter_quality thr order s = (Raised ValueError, s')) /\
  (forall a b save prefix order,
      extract a b save prefix order s = (Raised ValueError, s')).
Proof.
  intros Ht. cbv zeta. repeat split; intros; now apply no_pool_eq.
Qed.







(** * Further properties of the code *)

(** ** Paths and opening *)

Lemma append_length a b :
  String.length (a ++ b)%string = String.length a + String.length b.
Proof. induction a as [|c a IH]; cbn; [reflexivity | now rewrite IH]. Qed.

Lemma substring_whole s : substring 0 (String.length s) s = s.
Proof. induction s as [|c s IH]; cbn; [reflexivity | now rewrite IH]. Qed.

Lemma substring_append_skip a b m :
  substring (String.length a) m (a ++ b)%string = substring 0 m b.
Proof. induction a as [|c a IH]; cbn; [reflexivity | exact IH]. Qed.

Lemma substring_split s : forall k,
  k <= String.length s ->
  s = (substring 0 k s ++ substring k (String.length s - k) s)%string.
Proof.
  induction s as [|c s IH]; intros [|k] Hk; cbn in *; try reflexivity; try lia.
  - now rewrite substring_whole.
  - f_equal. apply IH. lia.
Qed.

Lemma endswith_iff s suffix :
  endswith s suffix = true <-> exists stem, s = (stem ++ suffix)%string.
Proof.
  unfold endswith. rewrite andb_true_iff, Nat.leb_le, String.eqb_eq. split.
  - intros (Hle & Hsub).
    exists (substring 0 (String.length s - String.length suffix) s).
    rewrite <- Hsub at 2.
    replace (String.length suffix)
      with (String.length s - (String.length s - String.length suffix)) at 3
      by lia.
    apply substring_split. lia.
  - intros (stem & ->). rewrite append_length. split; [lia|].
    replace (String.length stem + String.length suffix - String.length suffix)
      with (String.length stem) by lia.
    rewrite substring_append_skip. apply substring_whole.
Qed.

(** X1: a path is taken for a gzip file exactly when it is some stem
    followed by the three characters [.gz], and [open_file] opens those
    paths, and no others, through gzip. *)
Theorem open_file_by_suffix (gzip_open open_ : string -> list string)
  (file_path : string) :
  (is_gzipped file_path = true <->
   exists stem, file_path = (stem ++ ".gz")%string) /\
  ((exists stem, file_path = (stem ++ ".gz")%string) ->
   open_file gzip_open open_ file_path = gzip_open file_path) /\
  ((forall stem, file_path <> (stem ++ ".gz")%string) ->
   open_file gzip_open open_ file_path = open_ file_path).
Proof.
  assert (Hiff := endswith_iff file_path ".gz").
  split; [exact Hiff|]. unfold open_file, is_gzipped. split.
  - intros H. apply Hiff in H. now rewrite H.
  - intros H. destruct (endswith file_path ".gz") eqn:E; [|reflexivity].
    destruct Hiff as [Hex _]. destruct (Hex eq_refl) as (stem & Hs).
    now elim (H stem).
Qed.

Lemma open_file_by_suffix_witness :
  open_file (fun _ => sample_fastq) (fun _ => []) "reads.fastq.gz" =
    sample_fastq /\
  open_file (fun _ => []) (fun _ => sample_fastq) "reads.gz.fastq" =
    sample_fastq.
Proof.
  destruct (open_file_by_suffix (fun _ => sample_fastq) (fun _ => [])
              "reads.fastq.gz") as (_ & Hgz & _).
  destruct (open_file_by_suffix (fun _ => []) (fun _ => sample_fastq)
              "reads.gz.fastq") as (Hiff & _ & Hplain).
  split.
  - apply Hgz. exists "reads.fastq". reflexivity.
  - apply Hplain. intros stem Hstem.
    assert (Hg : is_gzipped "reads.gz.fastq" = true)
      by (apply Hiff; now exists stem).
    vm_compute in Hg. discriminate.
Defined.

(** ** Printing a record *)

Lemma append_inj_l p a b : (p ++ a)%string = (p ++ b)%string -> a = b.
Proof. induction p as [|c p IH]; cbn; [auto | intros [= H]; auto]. Qed.

Lemma append_inj_r t : forall a b,
  (a ++ t)%string = (b ++ t)%string -> a = b.
Proof.
  induction a as [|c a IH]; intros [|d b] H; cbn in H.
  - reflexivity.
  - apply (f_equal String.length) in H. cbn in H.
    rewrite append_length in H. lia.
  - apply (f_equal String.length) in H. cbn in H.
    rewrite append_length in H. lia.
  - injection H as -> H. f_equal. now apply IH.
Qed.

(** Two strings free of a character, each followed by that character,
    can be told apart from what follows. *)
Lemma append_inj_at_first c : forall a a' x y,
  occurs c a = false -> occurs c a' = false ->
  (a ++ String c x)%string = (a' ++ String c y)%string ->
  a = a' /\ x = y.
Proof.
  induction a as [|d a IH]; intros [|d' a'] x y Ha Ha' H; cbn in *.
  - injection H as ->. auto.
  - injection H as -> _. rewrite Ascii.eqb_refl in Ha'. discriminate.
  - injection H as -> _. rewrite Ascii.eqb_refl in Ha. discriminate.
  - injection H as -> H.
    apply orb_false_iff in Ha, Ha'.
    destruct (IH a' x y) as (-> & ->); tauto.
Qed.

(** X2: the printed form of a record tells the record when neither its
    header nor its sequence holds a comma; with commas two different
    records can print alike. *)
Theorem repr_unambiguous_without_commas :
  (forall r1 r2,
      occurs ","%char (info r1) = false ->
      occurs ","%char (seq_ r1) = false ->
      occurs ","%char (info r2) = false ->
      occurs ","%char (seq_ r2) = false ->
      __repr__ r1 = __repr__ r2 -> r1 = r2) /\
  (exists r1 r2, r1 <> r2 /\ __repr__ r1 = __repr__ r2).
Proof.
  split.
  - intros [i1 s1 q1] [i2 s2 q2]. cbn [info seq_ quality]. unfold __repr__.
    cbn [info seq_ quality]. intros Hi1 Hs1 Hi2 Hs2 H.
    apply append_inj_l in H.
    apply (append_inj_at_first ","%char) in H; [|assumption..].
    destruct H as (-> & H).
    apply (append_inj_l " seq=") in H.
    apply (append_inj_at_first ","%char) in H; [|assumption..].
    destruct H as (-> & H).
    apply (append_inj_l " quality=") in H.
    apply append_inj_r in H. now subst.
  - exists (mkFASTQRecord "@r, seq=A" "C" "I"),
           (mkFASTQRecord "@r" "A, seq=C" "I").
    split; [discriminate | reflexivity].
Qed.

Lemma repr_unambiguous_without_commas_witness :
  read1 = mkFASTQRecord "@read1" "ACGTACGTACGT" "IIIIIIIIIIII".
Proof.
  apply (proj1 repr_unambiguous_without_commas read1
           (mkFASTQRecord "@read1" "ACGTACGTACGT" "IIIIIIIIIIII"));
    reflexivity.
Defined.

(** ** What [load_chunk] reads *)

Lemma rstrip_nl_decompose s :
  exists k, s = (Py.rstrip_nl s ++ newlines k)%string.
Proof.
  induction s as [|c s (k & IH)]; [now exists 0|].
  cbn [Py.rstrip_nl]. destruct (Py.rstrip_nl s) as [|d r] eqn:E.
  - cbn [append] in IH. destruct (Py.is_newline c) eqn:Hc.
    + apply Ascii.eqb_eq in Hc. subst c.
      exists (S k). cbn. now rewrite <- IH.
    + exists k. cbn. now rewrite <- IH.
  - exists k. cbn [append]. f_equal. exact IH.
Qed.

Lemma rstrip_nl_not_newline_ended s : forall stem,
  Py.rstrip_nl s <> (stem ++ nl)%string.
Proof.
  induction s as [|c s IH]; intros stem H; cbn [Py.rstrip_nl] in H.
  - destruct stem; discriminate.
  - destruct (Py.rstrip_nl s) as [|d r] eqn:E.
    + destruct (Py.is_newline c) eqn:Hc.
      * destruct stem; discriminate.
      * destruct stem as [|e [|e' stem]]; try discriminate.
        injection H as ->. vm_compute in Hc. discriminate.
    + destruct stem as [|e stem]; [discriminate|].
      cbn in H. injection H as _ H. now apply (IH stem).
Qed.

Lemma rstrip_nl_endswith s : endswith (Py.rstrip_nl s) nl = false.
Proof.
  destruct (endswith (Py.rstrip_nl s) nl) eqn:E; [|reflexivity].
  apply endswith_iff in E. destruct E as (stem & H).
  now elim (rstrip_nl_not_newline_ended s stem).
Qed.

(** X3: [load_chunk] reads the first [chunk_size * 4] lines of the handle,
    or all of them when fewer are left, and leaves the others in the
    handle; from every line it takes the newlines at its end away and
    nothing else; with a chunk size of zero or less it reads nothing. *)
Theorem load_chunk_takes_stripped_prefix (fh : list string) (cs : Z) :
  let '(lines, rest) := load_chunk fh cs in
  List.length lines = Nat.min (Z.to_nat (cs * 4)) (List.length fh) /\
  rest = skipn (List.length lines) fh /\
  (forall i, i < List.length lines ->
     endswith (nth i lines EmptyString) nl = false /\
     exists k,
       nth i fh EmptyString = (nth i lines EmptyString ++ newlines k)%string) /\
  ((cs <= 0)%Z -> lines = [] /\ rest = fh).
Proof.
  rewrite load_chunk_firstn_skipn. unfold lines_per_chunk.
  set (n := Z.to_nat (cs * 4)).
  assert (Hlen : List.length (map Py.rstrip_nl (firstn n fh)) =
                 Nat.min n (List.length fh))
    by now rewrite length_map, length_firstn.
  split; [exact Hlen|]. split; [|split].
  - rewrite Hlen. destruct (Nat.le_ge_cases n (List.length fh)).
    + now rewrite Nat.min_l.
    + rewrite Nat.min_r, !skipn_all2 by lia. reflexivity.
  - intros i Hi. rewrite Hlen in Hi.
    assert (Hnth : nth i (map Py.rstrip_nl (firstn n fh)) EmptyString =
                   Py.rstrip_nl (nth i fh EmptyString)).
    { change EmptyString with (Py.rstrip_nl EmptyString) at 1.
      rewrite map_nth. f_equal. rewrite <- (firstn_skipn n fh) at 2.
      rewrite app_nth1; [reflexivity|]. rewrite length_firstn. lia. }
    rewrite Hnth. split; [apply rstrip_nl_endswith|].
    apply rstrip_nl_decompose.
  - intros Hz. replace n with 0 by (unfold n; lia). auto.
Qed.

(** ** Iteration, record by record *)

(** X4: iterating a reader to the end always succeeds and yields one
    record for every four lines of the file: record [i] is made of lines
    [4 i], [4 i + 1] and [4 i + 3], stripped of their newlines; line
    [4 i + 2] is read and never looked at. *)
Theorem iterate_reads_records_by_position (s : State) :
  exists records,
    result_of (iterate s) = Returned records /\
    List.length records = List.length (text_of s) / 4 /\
    forall i, i < List.length records ->
      nth i records (mkFASTQRecord EmptyString EmptyString EmptyString) =
      mkFASTQRecord (Py.rstrip_nl (nth (4 * i) (text_of s) EmptyString))
                    (Py.rstrip_nl (nth (4 * i + 1) (text_of s) EmptyString))
                    (Py.rstrip_nl (nth (4 * i + 3) (text_of s) EmptyString)).
Proof.
  exists (file_records s). rewrite iterate_eq.
  assert (Hlen : List.length (file_records s) = List.length (text_of s) / 4).
  { unfold file_records, stripped_text.
    now rewrite length_map, split_records_length, length_map. }
  repeat split; [exact Hlen|].
  intros i Hi. rewrite Hlen in Hi. unfold file_records, stripped_text.
  change (mkFASTQRecord EmptyString EmptyString EmptyString)
    with (record_of_tuple (EmptyString, EmptyString, EmptyString)).
  rewrite map_nth, split_records_nth by now rewrite length_map.
  now rewrite !nth_map_rstrip.
Qed.

Lemma resume_times_eq s : forall k fh,
  resume_times k (set_file s (Some fh)) =
  (Returned (firstn k (map record_of_tuple
                           (split_records (map Py.rstrip_nl fh)))),
   set_file s (Some (if k <=? List.length fh / 4
                     then skipn (4 * k) fh else []))).
Proof.
  induction k as [|k IH]; intros fh; [reflexivity|].
  destruct fh as [|a [|b [|c [|d rest]]]]; try reflexivity.
  cbn [resume_times]. unfold bind at 1.
  replace (resume_generator (set_file s (Some (a :: b :: c :: d :: rest))))
    with (Returned (Some (mkFASTQRecord (Py.rstrip_nl a) (Py.rstrip_nl b)
                                        (Py.rstrip_nl d))),
          set_file s (Some rest)) by reflexivity.
  unfold bind. rewrite IH. cbn [ret map split_records firstn record_of_tuple].
  f_equal. f_equal. f_equal.
  cbn [List.length].
  replace (S (S (S (S (List.length rest))))) with (List.length rest + 1 * 4)
    by lia.
  rewrite Nat.div_add by lia.
  replace (4 * S k) with (S (S (S (S (4 * k))))) by lia.
  cbn [skipn].
  destruct (Nat.leb_spec k (List.length rest / 4));
    destruct (Nat.leb_spec (S k) (List.length rest / 4 + 1));
    try reflexivity; lia.
Qed.

(** X5: the generator is lazy: resumed [k] times after [__iter__] it has
    yielded the first [k] records of the file and read four lines for
    each; resumed more often than there are records it has yielded them
    all and is at the end of the file, a last incomplete group being read
    and dropped. *)
Theorem generator_reads_four_lines_per_record (s : State) (k : nat) :
  resume_times k (state_of (__iter__ s)) =
  (Returned (firstn k (file_records s)),
   set_file s (Some (if k <=? List.length (text_of s) / 4
                     then skipn (4 * k) (text_of s) else []))).
Proof.
  unfold __iter__. rewrite reset_file_eq. cbn [state_of snd].
  apply resume_times_eq.
Qed.

(** ** Settings the bulk operations cannot work with *)

(** X6: with a thread count of zero or less every bulk operation raises
    [ValueError] when it builds its pool: the handle has been reset but no
    line is read and no file is written; iteration builds no pool and
    yields the records all the same. *)
Theorem bulk_operations_need_a_pool (s : State) :
  (thread s <= 0)%Z ->
  let stopped := set_file s (Some (text_of s)) in
  (forall order, count_reads order s = (Raised ValueError, stopped)) /\
  (forall a b order, trim a b order s = (Raised ValueError, stopped)) /\
  (forall threshold order,
      filter_quality threshold order s = (Raised ValueError, stopped)) /\
  (forall a b save prefix order,
      extract a b save prefix order s = (Raised ValueError, stopped)) /\
  result_of (iterate s) = Returned (file_records s).
Proof.
  intros Ht. cbv zeta.
  repeat split; intros; try (now apply no_pool_eq).
  now rewrite iterate_eq.
Qed.

Lemma bulk_operations_need_a_pool_witness :
  result_of (count_reads [0; 1] (reader_on sample_fastq 0 1)) =
    Raised ValueError /\
  result_of (iterate (reader_on sample_fastq 0 1)) = Returned [read1; read2].
Proof.
  destruct (bulk_operations_need_a_pool (reader_on sample_fastq 0 1))
    as (Hc & _ & _ & _ & Hi).
  - vm_compute. discriminate.
  - split; [now rewrite Hc | exact Hi].
Defined.

(** X7: with a chunk size of zero or less the first chunk is empty and
    the loading loop stops at once: whatever the file holds,
    [count_reads] returns 0, [trim] and [filter_quality] return no
    record, and [extract] returns, or saves, an empty list; iteration
    does not use the chunk size and yields the records. *)
Theorem nonpositive_chunk_size_reads_nothing (s : State) (order : list nat) :
  (1 <= thread s)%Z ->
  (chunk_size s <= 0)%Z ->
  result_of (count_reads order s) = Returned 0%Z /\
  (forall a b, result_of (trim a b order s) = Returned []) /\
  (forall threshold,
      result_of (filter_quality threshold order s) = Returned []) /\
  (forall a b prefix,
      result_of (extract a b false prefix order s) = Returned (Some []) /\
      parquet (state_of (extract a b true prefix order s)) =
        ((prefix ++ ".parquet")%string, ("extracted", [])) :: parquet s) /\
  result_of (iterate s) = Returned (file_records s).
Proof.
  intros Ht Hc.
  assert (Hno : pick (file_chunks s) order = []).
  { rewrite file_chunks_nil by lia. unfold pick.
    induction order as [|i order IH]; [reflexivity|].
    cbn [flat_map]. rewrite IH. now destruct i. }
  split; [|split; [|split; [|split]]].
  - rewrite count_reads_eq by exact Ht. now rewrite Hno.
  - intros a b. rewrite trim_eq by exact Ht. now rewrite Hno.
  - intros thr. rewrite filter_quality_eq by exact Ht. now rewrite Hno.
  - intros a b prefix. rewrite !extract_eq by exact Ht.
    unfold extracted_of. rewrite Hno. split; reflexivity.
  - now rewrite iterate_eq.
Qed.

Lemma nonpositive_chunk_size_reads_nothing_witness :
  result_of (count_reads [] (reader_on sample_fastq 4 0)) = Returned 0%Z /\
  result_of (iterate (reader_on sample_fastq 4 0)) = Returned [read1; read2].
Proof.
  destruct (nonpositive_chunk_size_reads_nothing
              (reader_on sample_fastq 4 0) [])
    as (Hc & _ & _ & _ & Hi).
  - vm_compute. discriminate.
  - vm_compute. discriminate.
  - split; [exact Hc | exact Hi].
Defined.

(** ** How many tasks *)

Lemma read_chunks_count cs :
  0 < lines_per_chunk cs ->
  forall fuel fh chunks rest,
    read_chunks fuel fh cs = Some (chunks, rest) ->
    List.length chunks =
    (List.length fh + lines_per_chunk cs - 1) / lines_per_chunk cs.
Proof.
  intros Hn. set (n := lines_per_chunk cs) in *.
  induction fuel as [|fuel IH]; intros fh chunks rest H; [discriminate|].
  destruct fh as [|a fh].
  - rewrite read_chunks_eof in H. injection H as <- _.
    cbn [List.length]. symmetry. apply Nat.div_small. lia.
  - rewrite read_chunks_step in H by exact Hn. fold n in H.
    destruct (read_chunks fuel (skipn n (a :: fh)) cs) as [[chunks' rest']|]
      eqn:E; [|discriminate].
    injection H as <- _. cbn [List.length].
    rewrite (IH _ _ _ E), length_skipn. cbn [List.length].
    destruct (Nat.le_gt_cases n (S (List.length fh))) as [Hge|Hlt].
    + replace (S (List.length fh) + n - 1)
        with (S (List.length fh) - n + n - 1 + 1 * n) by lia.
      rewrite Nat.div_add by lia. lia.
    + replace (S (List.length fh) - n) with 0 by lia.
      rewrite (Nat.div_small (0 + n - 1)) by lia.
      apply Nat.div_unique with (r := List.length fh); lia.
Qed.

(** X8: for a chunk size of at least one the loading loop cuts the file
    into as many chunks, and submits as many tasks, as the number of
    lines divided by [4 * chunk_size], rounded up; an empty file gives no
    task. *)
Theorem one_task_per_chunk (s : State) :
  (1 <= chunk_size s)%Z ->
  let per_chunk := 4 * Z.to_nat (chunk_size s) in
  num_chunks s = (List.length (text_of s) + per_chunk - 1) / per_chunk.
Proof.
  intros Hc. cbv zeta. rewrite <- lines_per_chunk_mult4.
  destruct (file_chunks_spec s Hc) as (Hrc & _).
  unfold num_chunks.
  apply (read_chunks_count (chunk_size s) (lines_per_chunk_pos s Hc) _ _ _ _ Hrc).
Qed.

Lemma one_task_per_chunk_witness :
  num_chunks (reader_on sample_fastq 4 1) = (8 + 4 - 1) / 4.
Proof.
  apply (one_task_per_chunk (reader_on sample_fastq 4 1)).
  vm_compute. discriminate.
Defined.

(** ** Extraction on whole files *)

Lemma split_sequences_length l :
  List.length (split_sequences l) = (List.length l + 2) / 4.
Proof.
  induction l as [|a|a b|a b c|a b c d rest IH] using list_ind4;
    try reflexivity.
  cbn [split_sequences List.length]. rewrite IH.
  replace (S (S (S (S (List.length rest)))) + 2)
    with (List.length rest + 2 + 1 * 4) by lia.
  rewrite Nat.div_add by lia. lia.
Qed.

Lemma split_sequences_of_records l :
  List.length l mod 4 < 2 ->
  split_sequences l = map (fun rec : raw_record => snd (fst rec))
                          (split_records l).
Proof.
  induction l as [|a|a b|a b c|a b c d rest IH] using list_ind4;
    intros H; try reflexivity; try (cbn in H; lia).
  cbn [split_sequences split_records map fst snd]. f_equal. apply IH.
  cbn [List.length] in H.
  replace (S (S (S (S (List.length rest))))) with (List.length rest + 1 * 4)
    in H by lia.
  now rewrite Nat.Div0.mod_add in H.
Qed.

Lemma extract_permuted start end_ prefix order s :
  (1 <= thread s)%Z -> (1 <= chunk_size s)%Z ->
  Permutation order (seq 0 (num_chunks s)) ->
  exists out,
    result_of (extract start end_ false prefix order s) =
      Returned (Some out) /\
    Permutation out (map (Py.slice start end_)
                         (split_sequences (stripped_text s))) /\
    (order = seq 0 (num_chunks s) ->
     out = map (Py.slice start end_) (split_sequences (stripped_text s))).
Proof.
  intros Ht Hc Hp. exists (extracted_of start end_ order s).
  rewrite extract_eq by exact Ht. split; [reflexivity|]. split.
  - rewrite <- (extracted_submission_order start end_ s Hc).
    unfold extracted_of. apply Permutation_flat_map.
    unfold num_chunks in *. rewrite pick_seq. now apply pick_perm.
  - intros ->. now apply extracted_submission_order.
Qed.

(** X9: for a thread count and a chunk size of at least one and every
    order of completion, [extract] returns one string for every group of
    the file that has a sequence line: the number of lines plus two,
    divided by four.  That is the number of records exactly when the
    file ends with fewer than two lines of an unfinished group. *)
Theorem extract_returns_one_string_per_sequence_line (s : State)
  (start end_ : Z) (prefix : string) (order : list nat) :
  (1 <= thread s)%Z -> (1 <= chunk_size s)%Z ->
  Permutation order (seq 0 (num_chunks s)) ->
  exists out,
    result_of (extract start end_ false prefix order s) =
      Returned (Some out) /\
    List.length out = (List.length (text_of s) + 2) / 4 /\
    (List.length out = List.length (text_of s) / 4 <->
     List.length (text_of s) mod 4 < 2).
Proof.
  intros Ht Hc Hp.
  destruct (extract_permuted start end_ prefix order s Ht Hc Hp)
    as (out & Hout & Hperm & _).
  exists out. split; [exact Hout|].
  assert (Hlen : List.length out = (List.length (text_of s) + 2) / 4).
  { rewrite (Permutation_length Hperm), length_map, split_sequences_length.
    unfold stripped_text. now rewrite length_map. }
  split; [exact Hlen|]. rewrite Hlen.
  set (n := List.length (text_of s)).
  pose proof (Nat.div_mod_eq n 4). pose proof (Nat.div_mod_eq (n + 2) 4).
  pose proof (Nat.mod_upper_bound n 4 ltac:(lia)).
  pose proof (Nat.mod_upper_bound (n + 2) 4 ltac:(lia)).
  lia.
Qed.

Lemma extract_returns_one_string_per_sequence_line_witness :
  exists out,
    result_of (extract 0 4 false "extracted" [0]
                       (reader_on truncated_fastq 4 10)) =
      Returned (Some out) /\
    List.length out = (6 + 2) / 4.
Proof.
  destruct (extract_returns_one_string_per_sequence_line
              (reader_on truncated_fastq 4 10) 0 4 "extracted" [0])
    as (out & Hout & Hlen & _).
  - vm_compute. discriminate.
  - vm_compute. discriminate.
  - vm_compute. apply Permutation_refl.
  - exists out. split; [exact Hout | exact Hlen].
Defined.

(** X10: on a file that ends with fewer than two lines of an unfinished
    group, [extract(start, end)] returns the slice [seq[start:end]] of
    the sequence of every record that iteration yields: in file order
    when the futures complete in submission order, and as a permutation
    of that list in any other order. *)
Theorem extract_slices_the_iterated_sequences (s : State) (start end_ : Z)
  (prefix : string) (order : list nat) :
  (1 <= thread s)%Z -> (1 <= chunk_size s)%Z ->
  List.length (text_of s) mod 4 < 2 ->
  Permutation order (seq 0 (num_chunks s)) ->
  exists records out,
    result_of (iterate s) = Returned records /\
    result_of (extract start end_ false prefix order s) =
      Returned (Some out) /\
    Permutation out
      (map (fun r => Py.slice start end_ (seq_ r)) records) /\
    (order = seq 0 (num_chunks s) ->
     out = map (fun r => Py.slice start end_ (seq_ r)) records).
Proof.
  intros Ht Hc Hwhole Hp.
  destruct (extract_permuted start end_ prefix order s Ht Hc Hp)
    as (out & Hout & Hperm & Hseq).
  exists (file_records s), out. rewrite iterate_eq.
  assert (Heq : map (Py.slice start end_) (split_sequences (stripped_text s)) =
                map (fun r => Py.slice start end_ (seq_ r)) (file_records s)).
  { unfold file_records.
    rewrite split_sequences_of_records
      by (unfold stripped_text; now rewrite length_map).
    rewrite !map_map. apply map_ext. now intros [[i sq] q]. }
  rewrite <- Heq. auto.
Qed.

Lemma extract_slices_the_iterated_sequences_witness :
  exists records out,
    result_of (iterate (reader_on sample_fastq 4 1)) = Returned records /\
    result_of (extract 2 6 false "extracted" [1; 0]
                       (reader_on sample_fastq 4 1)) = Returned (Some out) /\
    Permutation out (map (fun r => Py.slice 2 6 (seq_ r)) records).
Proof.
  destruct (extract_slices_the_iterated_sequences
              (reader_on sample_fastq 4 1) 2 6 "extracted" [1; 0])
    as (records & out & Hi & Ho & Hperm & _).
  - vm_compute. discriminate.
  - vm_compute. discriminate.
  - vm_compute. lia.
  - vm_compute. apply perm_swap.
  - exists records, out. auto.
Defined.

(** X11: with indices that are not negative, no string [extract] returns
    is longer than [end - start], whatever the file, the chunk size and
    the order of completion. *)
Theorem extracted_strings_are_bounded (s : State) (start end_ : Z)
  (prefix : string) (order : list nat) :
  (1 <= thread s)%Z -> (0 <= start)%Z -> (0 <= end_)%Z ->
  exists out,
    result_of (extract start end_ false prefix order s) =
      Returned (Some out) /\
    forall x, In x out -> String.length x <= Z.to_nat (end_ - start).
Proof.
  intros Ht Ha Hb. exists (extracted_of start end_ order s).
  rewrite extract_eq by exact Ht. split; [reflexivity|].
  intros x Hx. unfold extracted_of in Hx.
  apply in_flat_map in Hx. destruct Hx as (lines & _ & Hx).
  apply in_map_iff in Hx. destruct Hx as (sq & <- & _).
  rewrite slice_nonneg, substring_length by assumption. lia.
Qed.

Lemma extracted_strings_are_bounded_witness :
  exists out,
    result_of (extract 2 6 false "extracted" [1; 0]
                       (reader_on sample_fastq 4 1)) = Returned (Some out) /\
    forall x, In x out -> String.length x <= 4.
Proof.
  apply (extracted_strings_are_bounded (reader_on sample_fastq 4 1) 2 6
           "extracted" [1; 0]).
  - vm_compute. discriminate.
  - lia.
  - lia.
Defined.

(** X12: [extract] with the save flag writes one parquet file, named
    after the prefix, whose single column is called [extracted] whatever
    the prefix is and holds the very list the same call returns without
    the flag; no other file is touched and nothing is returned. *)
Theorem extract_saves_what_it_would_return (s : State) (start end_ : Z)
  (prefix : string) (order : list nat) :
  (1 <= thread s)%Z ->
  exists out,
    result_of (extract start end_ false prefix order s) =
      Returned (Some out) /\
    parquet (state_of (extract start end_ false prefix order s)) =
      parquet s /\
    result_of (extract start end_ true prefix order s) = Returned None /\
    parquet (state_of (extract start end_ true prefix order s)) =
      ((prefix ++ ".parquet")%string, ("extracted", out)) :: parquet s.
Proof.
  intros Ht. exists (extracted_of start end_ order s).
  rewrite !extract_eq by exact Ht. repeat split.
Qed.

Lemma extract_saves_what_it_would_return_witness :
  exists out,
    result_of (extract 0 16 false "hto" [0; 1] (reader_on sample_fastq 4 1)) =
      Returned (Some out) /\
    parquet (state_of (extract 0 16 true "hto" [0; 1]
                               (reader_on sample_fastq 4 1))) =
      [("hto.parquet", ("extracted", out))].
Proof.
  destruct (extract_saves_what_it_would_return
              (reader_on sample_fastq 4 1) 0 16 "hto" [0; 1])
    as (out & Hout & _ & _ & Hsaved).
  - vm_compute. discriminate.
  - exists out. split; [exact Hout | exact Hsaved].
Defined.

(** ** What the operations leave alone *)

Lemma only_handle_moved_set_file s f : only_handle_moved s (set_file s f).
Proof. unfold only_handle_moved. cbn. auto. Qed.

(** X13: iterating, counting, trimming, filtering and extracting without
    the save flag write no parquet file and change neither the file
    behind the reader nor its path, thread count and chunk size, whether
    they return or raise: the position of the handle is all they move. *)
Theorem reading_operations_only_move_the_handle (s : State)
  (order : list nat) :
  only_handle_moved s (state_of (iterate s)) /\
  only_handle_moved s (state_of (count_reads order s)) /\
  (forall a b, only_handle_moved s (state_of (trim a b order s))) /\
  (forall threshold,
      only_handle_moved s (state_of (filter_quality threshold order s))) /\
  (forall a b prefix,
      only_handle_moved s (state_of (extract a b false prefix order s))).
Proof.
  split; [rewrite iterate_eq; apply only_handle_moved_set_file|].
  destruct (Z_lt_le_dec (thread s) 1) as [Hz|Ht].
  - destruct (bulk_no_pool s ltac:(lia)) as (Hc & Htr & Hf & He).
    repeat split; intros; rewrite ?Hc, ?Htr, ?Hf, ?He; cbn; reflexivity.
  - repeat split; intros;
      rewrite ?count_reads_eq, ?trim_eq, ?filter_quality_eq, ?extract_eq
        by exact Ht; cbn; reflexivity.
Qed.

(** ** Tasks that raise *)

Lemma bulk_operations_share_body :
  (forall order,
      count_reads order =
      bulk_operation (fun lines => lines)
        (fun l => Returned (Z.of_nat (List.length l) / 4)%Z) Z.add 0%Z order) /\
  (forall a b order,
      trim a b order =
      bulk_operation group_records
        (fun records => Returned (trim_records_cython records a b))
        (fun acc result => acc ++ map record_of_tuple result) [] order) /\
  (forall threshold order,
      filter_quality threshold order =
      bulk_operation group_records
        (fun records => Returned (filter_quality_cython records threshold))
        (fun acc result => acc ++ map record_of_tuple result) [] order).
Proof. repeat split. Qed.

(** X14: the loop over the completed futures stops at the first future,
    in completion order, whose task raised, and raises that task's
    exception: what the earlier futures returned is dropped, and the
    futures after it are not looked at. *)
Theorem first_failed_future_decides {B Acc : Type} (step : Acc -> B -> Acc)
  (futures : list (outcome B)) (before after : list nat) (i : nat)
  (acc : Acc) (e : exn) :
  (forall j e', In j before -> nth_error futures j <> Some (Raised e')) ->
  nth_error futures i = Some (Raised e) ->
  as_completed_fold step futures (before ++ i :: after) acc = Raised e.
Proof.
  revert acc. induction before as [|j before IH]; intros acc Hok Hi.
  - cbn [app as_completed_fold]. now rewrite Hi.
  - cbn [app as_completed_fold].
    destruct (nth_error futures j) as [[r|e']|] eqn:Hj.
    + apply IH; [|exact Hi]. intros j' e'' Hin. apply Hok. now right.
    + now elim (Hok j e' (or_introl eq_refl)).
    + apply IH; [|exact Hi]. intros j' e'' Hin. apply Hok. now right.
Qed.

Lemma first_failed_future_decides_witness :
  as_completed_fold (fun acc result => acc ++ result)
    [Returned ["GTAC"]; Raised (WorkerError 1); Raised (WorkerError 2)]
    ([0] ++ 2 :: [1]) [] = Raised (WorkerError 2).
Proof.
  apply (first_failed_future_decides (fun acc result => acc ++ result)
           [Returned ["GTAC"]; Raised (WorkerError 1); Raised (WorkerError 2)]
           [0] [1] 2 [] (WorkerError 2)).
  - intros j e' [<-|[]]. discriminate.
  - reflexivity.
Defined.

(** X15: when the task of some chunk raises, a bulk operation raises
    instead of returning, and its last reset is not reached: the handle
    stays at the end of the file, where the loading loop left it; no
    file is written and the settings are unchanged. *)
Theorem failed_bulk_operation_leaves_handle_at_end {R B Acc : Type}
  (group : list string -> R) (task : R -> outcome B)
  (step : Acc -> B -> Acc) (init : Acc) (order : list nat) (s : State)
  (i : nat) (lines : list string) (e : exn) :
  (1 <= thread s)%Z -> (1 <= chunk_size s)%Z ->
  In i order ->
  nth_error (file_chunks s) i = Some lines ->
  task (group lines) = Raised e ->
  exists e' s',
    bulk_operation group task step init order s = (Raised e', s') /\
    _file s' = Some [] /\
    only_handle_moved s s'.
Proof.
  intros Ht Hc Hin Hi He.
  assert (Hfut : nth_error (map (fun l => task (group l)) (file_chunks s)) i =
                 Some (Raised e))
    by (rewrite nth_error_map, Hi; cbn; now rewrite He).
  destruct (bulk_raises group task step init ret order s i e Ht Hin Hfut)
    as (e' & Hraise).
  exists e', (set_file s (Some (file_rest s))).
  split; [exact Hraise|]. split.
  - cbn [_file set_file]. now rewrite (file_rest_eof s Hc).
  - apply only_handle_moved_set_file.
Qed.

Lemma failed_bulk_operation_leaves_handle_at_end_witness :
  exists e' s',
    bulk_operation (fun lines => lines)
      (fun lines : list string =>
         match lines with
         | "@read2" :: _ => Raised (WorkerError 1)
         | _ => Returned lines
         end)
      (fun acc result => acc ++ result) [] [0; 1]
      (reader_on sample_fastq 4 1) = (Raised e', s') /\
    _file s' = Some [] /\
    only_handle_moved (reader_on sample_fastq 4 1) s'.
Proof.
  apply (failed_bulk_operation_leaves_handle_at_end
           (fun lines => lines)
           (fun lines : list string =>
              match lines with
              | "@read2" :: _ => Raised (WorkerError 1)
              | _ => Returned lines
              end)
           (fun acc result => acc ++ result) [] [0; 1]
           (reader_on sample_fastq 4 1) 1
           ["@read2"; "TGCAAGCTTGCA"; "+"; "JJJJJJJJJJJJ"] (WorkerError 1)).
  - vm_compute. discriminate.
  - vm_compute. discriminate.
  - cbn. auto.
  - reflexivity.
  - reflexivity.
Defined.

(** ** A generator and a bulk operation on one reader *)

Lemma split_records_skipn l : forall j,
  split_records (skipn (4 * j) l) = skipn j (split_records l).
Proof.
  induction l as [|a|a b|a b c|a b c d rest IH] using list_ind4; intros j;
    try (rewrite (split_records_short (skipn _ _))
           by (rewrite length_skipn; cbn [List.length]; lia);
         cbn [split_records]; now rewrite skipn_nil).
  destruct j as [|j]; [reflexivity|].
  replace (4 * S j) with (S (S (S (S (4 * j))))) by lia.
  cbn [skipn split_records]. apply IH.
Qed.

(** X16: the generator reads through the one handle of the reader, which
    every bulk operation resets.  Left to itself, a generator that has
    yielded [j] records goes on with record [j]; after a call of
    [count_reads] in between it starts again from the first record. *)
Theorem count_reads_rewinds_a_running_generator (s : State) (j k : nat)
  (order : list nat) :
  (1 <= thread s)%Z ->
  j <= List.length (text_of s) / 4 ->
  let running := state_of (resume_times j (state_of (__iter__ s))) in
  result_of (resume_times k running) =
    Returned (firstn k (skipn j (file_records s))) /\
  result_of (resume_times k (state_of (count_reads order running))) =
    Returned (firstn k (file_records s)).
Proof.
  intros Ht Hj running.
  assert (Hrun : running = set_file s (Some (skipn (4 * j) (text_of s)))).
  { unfold running. rewrite generator_reads_four_lines_per_record.
    cbn [state_of snd].
    now replace (j <=? List.length (text_of s) / 4) with true
      by (symmetry; apply Nat.leb_le; exact Hj). }
  rewrite Hrun. split.
  - rewrite resume_times_eq. cbn [result_of fst]. f_equal.
    unfold file_records, stripped_text.
    now rewrite <- skipn_map, split_records_skipn, skipn_map.
  - rewrite count_reads_eq by exact Ht. cbn [state_of snd].
    change (set_file (set_file s (Some (skipn (4 * j) (text_of s))))
              (Some (text_of (set_file s (Some (skipn (4 * j) (text_of s)))))))
      with (set_file s (Some (text_of s))).
    now rewrite resume_times_eq.
Qed.

Lemma count_reads_rewinds_a_running_generator_witness :
  let running :=
    state_of (resume_times 1 (state_of (__iter__ (reader_on sample_fastq 4 1)))) in
  result_of (resume_times 1 running) = Returned [read2] /\
  result_of (resume_times 1 (state_of (count_reads [0; 1] running))) =
    Returned [read1].
Proof.
  apply (count_reads_rewinds_a_running_generator
           (reader_on sample_fastq 4 1) 1 1 [0; 1]).
  - vm_compute. discriminate.
  - vm_compute. lia.
Defined.

(** ** Fields without newlines *)

Lemma split_records_In l i sq q :
  In (i, sq, q) (split_records l) -> In i l /\ In sq l /\ In q l.
Proof.
  induction l as [|a|a b|a b c|a b c d rest IH] using list_ind4;
    cbn [split_records]; try contradiction.
  intros [[= <- <- <-]|H].
  - cbn [In]. auto 10.
  - destruct (IH H) as (Hi & Hs & Hq). cbn [In]. auto 10.
Qed.

(** X17: no field of a record that iteration yields ends with a newline:
    header, sequence and quality are lines of the file with the newlines
    at their end taken away. *)
Theorem iterated_fields_end_without_newline (s : State) :
  exists records,
    result_of (iterate s) = Returned records /\
    forall r, In r records ->
      endswith (info r) nl = false /\
      endswith (seq_ r) nl = false /\
      endswith (quality r) nl = false /\
      exists raw_info raw_seq raw_quality,
        In raw_info (text_of s) /\ In raw_seq (text_of s) /\
        In raw_quality (text_of s) /\
        info r = Py.rstrip_nl raw_info /\
        seq_ r = Py.rstrip_nl raw_seq /\
        quality r = Py.rstrip_nl raw_quality.
Proof.
  exists (file_records s). rewrite iterate_eq. split; [reflexivity|].
  intros r Hr. unfold file_records, stripped_text in Hr.
  apply in_map_iff in Hr. destruct Hr as ([[i sq] q] & <- & Hin).
  apply split_records_In in Hin. destruct Hin as (Hi & Hs & Hq).
  apply in_map_iff in Hi, Hs, Hq.
  destruct Hi as (ri & <- & Hri), Hs as (rs & <- & Hrs), Hq as (rq & <- & Hrq).
  cbn [record_of_tuple info seq_ quality].
  repeat split; try apply rstrip_nl_endswith.
  exists ri, rs, rq. auto 8.
Qed.
